(** * Project tracker front end: progress and status aggregation

    A shallow embedding of [src/js/app.js]: the completion percentage and
    the status rollup of a project, the functions that push them to the
    backend, the four submit handlers, deleting, and the reload of the
    project list.

    - JavaScript numbers are IEEE 754 binary64 values: Rocq's primitive
      [float], with [+], [/] and [*] rounding to nearest, ties to even.
    - An [async] function is a tree of awaited requests and page actions
      ([prog]); [run] plays it against a backend, which is a parameter.
    - A task is the pair of fields the aggregation reads; a listing whose
      elements are not such objects is outside the model.
    - A handler and the reload it starts without awaiting it run side by
      side; [play] hands their requests to the backend in a given order. *)

From Stdlib Require Import ZArith List String Ascii Bool Lia Floats Permutation.
From Stdlib Require Import DecimalString DecimalN DecimalPos.
Import ListNotations.
Open Scope string_scope.
Open Scope list_scope.
Open Scope Z_scope.

(** * Numbers and [toFixed(2)] *)

Definition number := float.

Definition decimal (n : Z) : string :=
  NilZero.string_of_uint (N.to_uint (Z.to_N n)).

Definition digit (d : Z) : string := decimal (d mod 10).

(** The integer [n] for which [n / 100 - x] is as close to zero as possible,
    the larger one when two are as close; [x = m * 2^e] is positive. *)
Definition hundredths (m : positive) (e : Z) : Z :=
  if 0 <=? e then 100 * Zpos m * 2 ^ e
  else (200 * Zpos m + 2 ^ (- e)) / 2 ^ (1 - e).

(** The digits of [n], at least three of them, with a point before the last
    two. *)
Definition fixedDigits (n : Z) : string :=
  (decimal (n / 100) ++ "." ++ digit (n mod 100 / 10) ++ digit (n mod 100))%string.

(** [x >= 10^21], where [toFixed] hands over to [Number::toString]. *)
Definition exponential (m : positive) (e : Z) : bool :=
  (0 <=? e) && (10 ^ 21 <=? Zpos m * 2 ^ e).

(** [c] reads back as [x = m * 2^e]: it lies between the midpoints to the
    neighbouring doubles, the midpoints included when [m] is even. *)
Definition readsBack (m : positive) (e : Z) (c : Z) : bool :=
  let v := Zpos m * 2 ^ e in
  let above := 2 ^ e in
  let below := if (Zpos m =? 2 ^ 52) && (1 <=? e) then 2 ^ (e - 1) else 2 ^ e in
  if Z.even (Zpos m)
  then (2 * v - below <=? 2 * c) && (2 * c <=? 2 * v + above)
  else (2 * v - below <? 2 * c) && (2 * c <? 2 * v + above).

(** The multiple of [10^p] that reads back as [x] and is closest to it. *)
Definition nearest (m : positive) (e : Z) (p : Z) : option Z :=
  let v := Zpos m * 2 ^ e in
  let P := 10 ^ p in
  let c1 := v / P * P in
  let c2 := c1 + P in
  match readsBack m e c1, readsBack m e c2 with
  | false, false => None
  | true, false => Some c1
  | false, true => Some c2
  | true, true =>
      match (v - c1) ?= (c2 - v) with
      | Lt => Some c1
      | Gt => Some c2
      | Eq => if Z.even (c1 / P) then Some c1 else Some c2
      end
  end.

(** The fewest significant digits [s] and the power of ten [p] with
    [s * 10^p] reading back as [x]. *)
Fixpoint fewestDigits (m : positive) (e : Z) (fuel : nat) (p : Z) : Z * Z :=
  match fuel with
  | O => (Zpos m * 2 ^ e, p)
  | S fuel' =>
      match nearest m e (p + 1) with
      | Some _ => fewestDigits m e fuel' (p + 1)
      | None =>
          match nearest m e p with
          | Some c => (c / 10 ^ p, p)
          | None => (Zpos m * 2 ^ e, 0)
          end
      end
  end.

(** [Number::toString] of an integer [x = m * 2^e >= 10^21]: exponent
    notation. A double is below [10^309], so 400 steps reach every [p]. *)
Definition toStringLarge (m : positive) (e : Z) : string :=
  let '(s, p) := fewestDigits m e 400 0 in
  let ds := decimal s in
  let n := Z.of_nat (String.length ds) + p in
  match ds with
  | String d EmptyString => (String d EmptyString ++ "e+" ++ decimal (n - 1))%string
  | String d rest => (String d EmptyString ++ "." ++ rest ++ "e+" ++ decimal (n - 1))%string
  | EmptyString => EmptyString
  end.

(** [Number.prototype.toFixed] with 2 fraction digits. *)
Definition toFixed2 (x : number) : string :=
  match Prim2SF x with
  | S754_nan => "NaN"
  | S754_infinity false => "Infinity"
  | S754_infinity true => "-Infinity"
  | S754_zero _ => "0.00"
  | S754_finite s m e =>
      ((if s then "-" else "") ++
       (if exponential m e
        then toStringLarge m e
        else fixedDigits (hundredths m e)))%string
  end.

(** * Data model *)

(** A task as the aggregation reads it: [task.status] and [task.weight]. *)
Record task := { status : string; weight : number }.

(** A project or task identifier; [None] is JavaScript's [null]. *)
Definition ident := option Z.

(** What [response.json()] resolves to, as far as the client looks at it: a
    falsy value ([null], [false], [0], the empty string), an array of tasks,
    or any other truthy value (an error object, say), which has neither a
    [length] of 0 nor the array methods. *)
Inductive jsvalue :=
| JFalsy
| JArray (tasks : list task)
| JOther.

(** A settled HTTP response: [response.ok] and the parsed body, [None] when
    the body is not JSON and [response.json()] rejects. *)
Record response := { ok : bool; json : option jsvalue }.

Inductive outcome :=
| Rejected
| Fulfilled (r : response).

Inductive method := GET | POST | PUT | DELETE.

Inductive resource :=
| ApiProjects
| ApiProject (id : ident)
| ApiTasks
| ApiTask (id : ident)
| ApiTasksOfProject (id : ident).

(** The JSON bodies the client sends. *)
Inductive body :=
| CompletionProgress (completion_progress : string)
| Status (status : string)
| NewTask (project_id : ident) (name status weight : string)
| TaskFields (name status weight : string)
| ProjectName (name : string)
| NewProject (name status : string) (completion_progress : number).

Record request := { verb : method; url : resource; sent : option body }.

Definition get (u : resource) : request :=
  {| verb := GET; url := u; sent := None |}.

Definition put (u : resource) (b : body) : request :=
  {| verb := PUT; url := u; sent := Some b |}.

Definition post (u : resource) (b : body) : request :=
  {| verb := POST; url := u; sent := Some b |}.

(** Everything else a function does to the page; console messages keep the
    fixed part of their text. [LoadProjects] is the call [loadProjects()]
    that the handlers make without awaiting it: the reload runs on its own
    from there. [ModalHide] finds the modal that the handler was opened
    from. [ProjectListSet] is [projectList.innerHTML = html] and
    [ProjectListAppend] is [projectList.innerHTML += html]. *)
Inductive action :=
| ConsoleLog (msg : string)
| ConsoleError (msg : string)
| Alert (msg : string)
| ModalHide (modal : string)
| LoadProjects
| ProjectListSet (html : string)
| ProjectListAppend (html : string).

Inductive error := NetworkError | SyntaxError | TypeError.

(** * Asynchronous functions *)

(** The body of an [async] function: it returns, throws, awaits a [fetch]
    (and is suspended until the request settles), or acts on the page. *)
Inductive prog (A : Type) : Type :=
| Return (a : A)
| Throw (e : error)
| Await (r : request) (k : outcome -> prog A)
| Perform (a : action) (k : prog A).

Arguments Return {A} a.
Arguments Throw {A} e.
Arguments Await {A} r k.
Arguments Perform {A} a k.

Fixpoint bind {A B : Type} (p : prog A) (f : A -> prog B) : prog B :=
  match p with
  | Return a => f a
  | Throw e => Throw e
  | Await r k => Await r (fun o => bind (k o) f)
  | Perform a k => Perform a (bind k f)
  end.

(** [try { p } catch (error) { handler }] *)
Fixpoint tryCatch {A : Type} (p : prog A) (handler : error -> prog A) : prog A :=
  match p with
  | Return a => Return a
  | Throw e => handler e
  | Await r k => Await r (fun o => tryCatch (k o) handler)
  | Perform a k => Perform a (tryCatch k handler)
  end.

Declare Scope prog_scope.
Delimit Scope prog_scope with prog.
Bind Scope prog_scope with prog.
Notation "x <- p ;; q" := (bind p (fun x => q))
  (at level 61, p at next level, right associativity) : prog_scope.
Notation "p ;; q" := (bind p (fun _ => q))
  (at level 61, right associativity) : prog_scope.
Open Scope prog_scope.

Definition do (a : action) : prog unit := Perform a (Return tt).

(** [await fetch(...)]: a rejected promise is thrown at the [await]. *)
Definition fetch (r : request) : prog response :=
  Await r (fun o => match o with
                    | Rejected => Throw NetworkError
                    | Fulfilled resp => Return resp
                    end).

(** [await response.json()] *)
Definition readJson (resp : response) : prog jsvalue :=
  match json resp with
  | Some v => Return v
  | None => Throw SyntaxError
  end.

(** [!tasks || tasks.length === 0] *)
Definition noTasks (tasks : jsvalue) : bool :=
  match tasks with
  | JFalsy => true
  | JArray [] => true
  | _ => false
  end.

(** Calling an array method ([forEach], [every]) on the value. *)
Definition asArray (tasks : jsvalue) : prog (list task) :=
  match tasks with
  | JArray l => Return l
  | _ => Throw TypeError
  end.

Definition isDone (t : task) : bool := String.eqb (status t) "done".

Definition isInProgress (t : task) : bool := String.eqb (status t) "in progress".

(** The callback of [tasks.forEach], on the two running sums. *)
Definition addWeight '((totalWeight, completedWeight) : number * number) (t : task)
  : number * number :=
  ((totalWeight + weight t)%float,
   if isDone t then (completedWeight + weight t)%float else completedWeight).

(** The [tasks.forEach] loop: [(totalWeight, completedWeight)] after it. *)
Definition forEachWeight (tasks : list task) : number * number :=
  fold_left addWeight tasks (0%float, 0%float).

Definition completionProgress (tasks : list task) : number :=
  let '(totalWeight, completedWeight) := forEachWeight tasks in
  (completedWeight / totalWeight * 100)%float.

(** What [calculateProjectProgress] returns: the number [0], or the string
    that [toFixed(2)] makes. *)
Inductive progress :=
| PNumber (x : number)
| PString (s : string).

Definition calculateProjectProgress (projectId : ident) : prog progress :=
  tryCatch
    (taskResponse <- fetch (get (ApiTasksOfProject projectId)) ;;
     tasks <- readJson taskResponse ;;
     if noTasks tasks then Return (PNumber 0%float)
     else
       l <- asArray tasks ;;
       Return (PString (toFixed2 (completionProgress l))))
    (fun _ =>
       do (ConsoleError "Error calculating progress for project") ;;
       Return (PNumber 0%float)).

Definition updateProjectProgress (projectId : ident) (progress : string) : prog unit :=
  tryCatch
    (response <- fetch (put (ApiProject projectId) (CompletionProgress progress)) ;;
     if ok response then Return tt
     else do (ConsoleError "Error updating progress for project"))
    (fun _ => do (ConsoleError "Error updating project progress for")).

(** The value of [projectStatus] when the request is built. *)
Definition projectStatus (tasks : list task) : string :=
  if forallb isDone tasks then "done"
  else if existsb isInProgress tasks then "in progress"
  else "draft".

Definition updateProjectStatus (projectId : ident) : prog unit :=
  tryCatch
    (taskResponse <- fetch (get (ApiTasksOfProject projectId)) ;;
     tasks <- readJson taskResponse ;;
     l <- asArray tasks ;;
     response <- fetch (put (ApiProject projectId) (Status (projectStatus l))) ;;
     if ok response then Return tt
     else do (ConsoleError "Error updating status for project"))
    (fun _ => do (ConsoleError "Error updating project status for")).

(** Returns a table row when the id is [null], nothing otherwise. *)
Definition calculateAndUpdateProjectProgress (projectId : ident) : prog (option string) :=
  match projectId with
  | None =>
      do (ConsoleLog "Skipping task loading because project_id is null or invalid.") ;;
      Return (Some "<tr><td colspan='4' class='text-center'>Project ID is invalid.</td></tr>")
  | Some _ =>
      tryCatch
        (taskResponse <- fetch (get (ApiTasksOfProject projectId)) ;;
         tasks <- readJson taskResponse ;;
         if noTasks tasks then
           do (ConsoleLog "has no tasks.") ;;
           Return None
         else
           l <- asArray tasks ;;
           updateProjectProgress projectId (toFixed2 (completionProgress l)) ;;
           updateProjectStatus projectId ;;
           Return None)
        (fun _ =>
           do (ConsoleError "Error calculating progress for project") ;;
           Return None)
  end.

(** * Event handlers

    The values of the form fields and of [currentProjectId] and
    [currentTaskId] at the click are the handler's arguments. *)

Definition submitTaskBtn_click (currentProjectId : ident)
    (taskName taskStatus taskWeight : string) : prog unit :=
  tryCatch
    (response <- fetch (post ApiTasks
                   (NewTask currentProjectId taskName taskStatus taskWeight)) ;;
     if ok response then
       do LoadProjects ;;
       do (ModalHide "addTaskModal") ;;
       calculateAndUpdateProjectProgress currentProjectId ;;
       updateProjectStatus currentProjectId
     else do (Alert "Error adding task."))
    (fun _ =>
       do (ConsoleError "Error adding task:") ;;
       do (Alert "Error adding task.")).

Definition submitEditTaskBtn_click (currentProjectId currentTaskId : ident)
    (taskName taskStatus taskWeight : string) : prog unit :=
  tryCatch
    (response <- fetch (put (ApiTask currentTaskId)
                   (TaskFields taskName taskStatus taskWeight)) ;;
     if ok response then
       do LoadProjects ;;
       do (ModalHide "editTaskModal") ;;
       calculateAndUpdateProjectProgress currentProjectId ;;
       updateProjectStatus currentProjectId
     else do (Alert "Error editing task."))
    (fun _ =>
       do (ConsoleError "Error editing task:") ;;
       do (Alert "Error editing task.")).

(** [!projectName] *)
Definition isEmpty (s : string) : bool :=
  match s with
  | EmptyString => true
  | _ => false
  end.

Definition submitEditProjectBtn_click (currentProjectId : ident)
    (projectName : string) : prog unit :=
  if isEmpty projectName then do (Alert "Please fill in all fields.")
  else
    tryCatch
      (response <- fetch (put (ApiProject currentProjectId) (ProjectName projectName)) ;;
       if ok response then
         do LoadProjects ;;
         do (ModalHide "editProjectModal")
       else do (Alert "Error editing project."))
      (fun _ =>
         do (ConsoleError "Error submitting project changes:") ;;
         do (Alert "Error submitting project changes.")).

Definition submitProjectBtn_click (projectName : string) : prog unit :=
  if isEmpty projectName then do (Alert "Please fill in all fields.")
  else
    tryCatch
      (response <- fetch (post ApiProjects (NewProject projectName "draft" 0%float)) ;;
       if ok response then
         do LoadProjects ;;
         do (ModalHide "createProjectModal")
       else do (Alert "Error creating project."))
      (fun _ =>
         do (ConsoleError "Error submitting project:") ;;
         do (Alert "Error submitting project.")).

(** * Running a function against a backend *)

(** What an observer of one call sees, in order: a request leaving, a
    request settling, an action on the page. *)
Inductive event :=
| Issued (r : request)
| Settled (o : outcome)
| Did (a : action).

Inductive completion (A : Type) : Type :=
| Returns (a : A)
| Throws (e : error).

Arguments Returns {A} a.
Arguments Throws {A} e.

Section Run.

(** The backend is not part of the client: any state, and any way of
    answering a request. *)
Context {store : Type}.
Variable serve : request -> store -> outcome * store.

Fixpoint run {A : Type} (p : prog A) (s : store) : completion A * store * list event :=
  match p with
  | Return a => (Returns a, s, [])
  | Throw e => (Throws e, s, [])
  | Await r k =>
      let '(o, s1) := serve r s in
      let '(c, s2, t) := run (k o) s1 in
      (c, s2, Issued r :: Settled o :: t)
  | Perform a k =>
      let '(c, s1, t) := run k s in
      (c, s1, Did a :: t)
  end.

Definition result {A : Type} (p : prog A) (s : store) : completion A :=
  fst (fst (run p s)).

Definition final {A : Type} (p : prog A) (s : store) : store :=
  snd (fst (run p s)).

Definition events {A : Type} (p : prog A) (s : store) : list event :=
  snd (run p s).

Definition tasksRequest (projectId : ident) : request :=
  get (ApiTasksOfProject projectId).

Definition statusRequest (projectId : ident) (l : list task) : request :=
  put (ApiProject projectId) (Status (projectStatus l)).

Definition progressRequest (projectId : ident) (l : list task) : request :=
  put (ApiProject projectId) (CompletionProgress (toFixed2 (completionProgress l))).

(** In state [s] the backend answers the listing of the project's tasks
    with the array [l], and is in state [s1] afterwards. *)
Definition lists (projectId : ident) (s : store) (l : list task) (s1 : store) : Prop :=
  exists taskResponse,
    serve (tasksRequest projectId) s = (Fulfilled taskResponse, s1) /\
    json taskResponse = Some (JArray l).

End Run.

Fixpoint requests (t : list event) : list request :=
  match t with
  | [] => []
  | Issued r :: t' => r :: requests t'
  | _ :: t' => requests t'
  end.

(** No two requests in flight: whatever is issued settles before the next
    event. *)
Fixpoint sequential (t : list event) : Prop :=
  match t with
  | [] => True
  | Issued _ :: Settled _ :: t' => sequential t'
  | Issued _ :: _ => False
  | _ :: t' => sequential t'
  end.

(** * Reference definitions *)

(** The sum of the weights, added in list order from 0 as the loop does. *)
Definition sumWeights (tasks : list task) : number :=
  fold_left (fun acc t => (acc + weight t)%float) tasks 0%float.

(** * Whole-number weights *)

(** [p] shifted left by [k] bits. *)
Definition shl (p : positive) (k : nat) : positive := Nat.iter k xO p.

(** The binary64 representation of a positive integer below 2^53. *)
Definition whole (p : positive) : spec_float :=
  S754_finite false
    (shl p (Z.to_nat (53 - Zpos (digits2_pos p))))
    (Zpos (digits2_pos p) - 53).

Definition ofZ (n : Z) : number := of_uint63 (Uint63.of_Z n).

(** The integer part of a positive finite number, 0 for anything else. *)
Definition toZ (x : number) : Z :=
  match Prim2SF x with
  | S754_finite false m e => Z.shiftl (Zpos m) e
  | _ => 0
  end.

(** [x] is one of 0, 1, 2, ..., 2^53 - 1. *)
Definition wholeWeight (x : number) : Prop :=
  0 <= toZ x < 2 ^ 53 /\ x = ofZ (toZ x).

Definition totalZ (tasks : list task) : Z :=
  fold_right (fun t acc => toZ (weight t) + acc) 0 tasks.

Definition doneZ (tasks : list task) : Z :=
  fold_right (fun t acc => if isDone t then toZ (weight t) + acc else acc) 0 tasks.

(** * Backends and task lists for examples *)

(** This backend answers every request with [ok] and the given body, and
    keeps the requests that were not GETs, latest first. *)
Definition cannedResponse (tasks : jsvalue) : response :=
  {| ok := true; json := Some tasks |}.

Definition cannedBackend (tasks : jsvalue) (r : request) (s : list request)
  : outcome * list request :=
  (Fulfilled (cannedResponse tasks),
   match verb r with GET => s | _ => r :: s end).

(** This one holds the tasks in the order it lists them. *)
Definition listingBackend (r : request) (s : list task) : outcome * list task :=
  (Fulfilled {| ok := true; json := Some (JArray s) |}, s).

Definition twoOfFour : list task :=
  [{| status := "done"; weight := 2%float |}; {| status := "draft"; weight := 2%float |}].

Definition weightless : list task :=
  [{| status := "draft"; weight := 0%float |}; {| status := "done"; weight := 0%float |}].

Definition oneDone : list task := [{| status := "done"; weight := 1%float |}].

(** Weights as the JSON texts 0.1, 0.7 and 2.4 are read: the nearest
    doubles, 0x1.999999999999ap-4, 0x1.6666666666666p-1 and
    0x1.3333333333333p+1. *)
#[local] Set Warnings "-inexact-float".
Definition mixed : list task :=
  [{| status := "draft"; weight := 0.1%float |};
   {| status := "done"; weight := 0.7%float |};
   {| status := "draft"; weight := 2.4%float |}].

Definition mixedReordered : list task :=
  [{| status := "draft"; weight := 0.1%float |};
   {| status := "draft"; weight := 2.4%float |};
   {| status := "done"; weight := 0.7%float |}].

#[local] Set Warnings "inexact-float".

Definition threeWhole : list task :=
  [{| status := "done"; weight := 3%float |};
   {| status := "draft"; weight := 5%float |};
   {| status := "in progress"; weight := 8%float |}].

Definition threeWholeReordered : list task :=
  [{| status := "in progress"; weight := 8%float |};
   {| status := "done"; weight := 3%float |};
   {| status := "draft"; weight := 5%float |}].

(** * The other functions of the page *)

Definition delete (u : resource) : request :=
  {| verb := DELETE; url := u; sent := None |}.

(** The twin of [calculateAndUpdateProjectProgress] that [loadProjects]
    awaits for every project: the same body without the test of the id. *)
Definition calculateAndLogProjectProgress (projectId : ident) : prog unit :=
  tryCatch
    (taskResponse <- fetch (get (ApiTasksOfProject projectId)) ;;
     tasks <- readJson taskResponse ;;
     if noTasks tasks then
       do (ConsoleLog "has no tasks.")
     else
       l <- asArray tasks ;;
       updateProjectProgress projectId (toFixed2 (completionProgress l)) ;;
       updateProjectStatus projectId)
    (fun _ => do (ConsoleError "Error calculating progress for project")).

(** [confirmDelete] is what the user answers to [confirm(...)]. *)
Definition deleteTask (confirmDelete : bool) (task_id : ident) : prog unit :=
  if confirmDelete then
    tryCatch
      (response <- fetch (delete (ApiTask task_id)) ;;
       if ok response then do LoadProjects
       else do (Alert "Error deleting task."))
      (fun _ =>
         do (ConsoleError "Error deleting task:") ;;
         do (Alert "Error deleting task."))
  else Return tt.

Definition deleteProject (confirmDelete : bool) (project_id : ident) : prog unit :=
  if confirmDelete then
    tryCatch
      (response <- fetch (delete (ApiProject project_id)) ;;
       if ok response then do LoadProjects
       else do (Alert "Error deleting project."))
      (fun _ =>
         do (ConsoleError "Error deleting project:") ;;
         do (Alert "Error deleting project."))
  else Return tt.

(** The row that stands for an empty table. *)
Definition noTaskRow : string :=
  "<tr><td colspan='4' class='text-center'>Tidak ada task ditemukan untuk project ini.</td></tr>".

Section View.

(** The markup of one table row, the template literal of [loadTasks]. It
    also reads the task's name and id, which the aggregation never does
    and [task] does not carry, so it is left open here. *)
Variable taskRow : task -> string.

Definition loadTasks (project_id : ident) : prog string :=
  tryCatch
    (taskResponse <- fetch (get (ApiTasksOfProject project_id)) ;;
     if negb (ok taskResponse) then Return noTaskRow
     else
       tasks <- readJson taskResponse ;;
       if noTasks tasks then Return noTaskRow
       else
         l <- asArray tasks ;;
         Return (String.concat "" (map taskRow l)))
    (fun _ =>
       do (ConsoleError "Error fetching tasks for project") ;;
       Return noTaskRow).

End View.

(** The array of tasks in a settled listing, if it is one. *)
Definition listing (o : outcome) : option (list task) :=
  match o with
  | Fulfilled r =>
      match json r with
      | Some (JArray l) => Some l
      | _ => None
      end
  | Rejected => None
  end.

(** [response.ok] of a settled request; a rejected one has none. *)
Definition succeeded (o : outcome) : bool :=
  match o with
  | Fulfilled r => ok r
  | Rejected => false
  end.

(** A finite number other than 0. *)
Definition finiteNonzero (x : number) : bool :=
  match Prim2SF x with
  | S754_finite _ _ _ => true
  | _ => false
  end.

(** A number other than 0 and NaN. *)
Definition nonzero (x : number) : bool :=
  match Prim2SF x with
  | S754_finite _ _ _ | S754_infinity _ => true
  | _ => false
  end.

Definition oneStarted : list task :=
  [{| status := "in progress"; weight := 3%float |}].

(** * Reading a result back *)

(** The quotient of the two sums times 100, as JavaScript numbers. *)
Definition percentDone (tasks : list task) : number :=
  (sumWeights (filter isDone tasks) / sumWeights tasks * 100)%float.

(** The size of a finite number as a fraction [(num, den)], [den] a power
    of two. *)
Definition magnitude (x : number) : option (Z * Z) :=
  match Prim2SF x with
  | S754_zero _ => Some (0, 1)
  | S754_finite _ m e => Some (Zpos m * 2 ^ Z.max e 0, 2 ^ Z.max (- e) 0)
  | _ => None
  end.

(** The sign of a finite number other than 0. *)
Definition isNegative (x : number) : bool :=
  match Prim2SF x with
  | S754_finite s _ _ => s
  | _ => false
  end.

(** [n / 100] is [num / den] rounded to two decimals: [n] is the integer
    nearest to [100 * num / den], the larger one when two are as near. *)
Definition roundedTo2 (num den n : Z) : Prop :=
  2 * n * den <= 200 * num + den < 2 * (n + 1) * den.

(** The text before the first point, and the text after it. *)
Fixpoint splitAtPoint (s : string) : option (string * string) :=
  match s with
  | EmptyString => None
  | String c rest =>
      if Ascii.eqb c "." then Some (EmptyString, rest)
      else match splitAtPoint rest with
           | Some (whole, fraction) => Some (String c whole, fraction)
           | None => None
           end
  end.

(** The number that a non-empty row of decimal digits writes. *)
Definition readDigits (s : string) : option Z :=
  match NilZero.uint_of_string s with
  | Some d => Some (Z.of_N (N.of_uint d))
  | None => None
  end.

(** A decimal with two fraction digits, read as its sign and the number of
    hundredths: ["-14.37"] is [(true, 1437)]. *)
Definition readFixed (s : string) : option (bool * Z) :=
  let '(minus, digits) :=
    match s with
    | String "-" rest => (true, rest)
    | _ => (false, s)
    end in
  match splitAtPoint digits with
  | Some (whole, fraction) =>
      match readDigits whole, readDigits fraction with
      | Some a, Some b =>
          if (String.length fraction =? 2)%nat then Some (minus, 100 * a + b) else None
      | _, _ => None
      end
  | None => None
  end.

Definition isDigit (c : ascii) : bool :=
  match uint_of_char c (Some Decimal.Nil) with
  | Some _ => true
  | None => false
  end.

Fixpoint digitsOnly (s : string) : bool :=
  match s with
  | EmptyString => true
  | String c rest => isDigit c && digitsOnly rest
  end.

(** The two fraction digits that [fixedDigits] writes for [f] read back
    as [f]. *)
Definition twoDigits (f : Z) : bool :=
  match readDigits (digit (f / 10) ++ digit f) with
  | Some b => (b =? f) && (String.length (digit (f / 10) ++ digit f) =? 2)%nat
  | None => false
  end.

Definition twentyThreeOf160 : list task :=
  [{| status := "done"; weight := 23%float |};
   {| status := "draft"; weight := 137%float |}].

(** * The reload and the page *)

(** A project as [loadProjects] reads it. *)
Module Project.
Record t := { id : ident; name : string; status : string }.
End Project.

(** What [projectResponse.json()] resolves to, as far as [loadProjects]
    looks at it: a falsy value, an array of projects, or any other truthy
    value, which is not iterable. *)
Inductive jsprojects :=
| PFalsy
| PArray (projects : list Project.t)
| POther.

Section Page.

(** The body of the projects listing is not a listing of tasks, which is
    what [json] describes; how the response to [GET /api/projects] parses
    is given with the backend ([None]: the body is not JSON). The markup
    of a table row and of a project card, two template literals, is left
    open. *)
Variable projectsOf : response -> option jsprojects.
Variable taskRow : task -> string.
Variable projectCard : Project.t -> progress -> string -> string.

(** The [for (const project of projects)] loop. *)
Fixpoint forEachProject (projects : list Project.t) : prog unit :=
  match projects with
  | [] => Return tt
  | project :: rest =>
      percent <- calculateProjectProgress (Project.id project) ;;
      rows <- loadTasks taskRow (Project.id project) ;;
      do (ProjectListAppend (projectCard project percent rows)) ;;
      calculateAndLogProjectProgress (Project.id project) ;;
      forEachProject rest
  end.

Definition loadProjects : prog unit :=
  tryCatch
    (projectResponse <- fetch (get ApiProjects) ;;
     projects <- match projectsOf projectResponse with
                 | Some v => Return v
                 | None => Throw SyntaxError
                 end ;;
     match projects with
     | PFalsy | PArray [] =>
         do (ProjectListSet "<p class='text-center'>Tidak ada project ditemukan.</p>")
     | PArray l =>
         do (ProjectListSet "") ;;
         forEachProject l
     | POther =>
         do (ProjectListSet "") ;;
         Throw TypeError
     end)
    (fun _ =>
       do (ConsoleError "Error fetching projects:") ;;
       do (ProjectListSet
             "<p class='text-center text-danger'>Terjadi kesalahan saat memuat project.</p>")).

(** A call runs on its own until it has to wait for a request: the
    actions up to there, and what is left of the call. *)
Fixpoint untilAwait (p : prog unit) : list action * prog unit :=
  match p with
  | Perform a k => let '(acts, rest) := untilAwait k in (a :: acts, rest)
  | _ => ([], p)
  end.

(** Every [loadProjects()] among the actions starts a reload, which waits
    for its first request at once. *)
Definition started (acts : list action) : list (prog unit) :=
  flat_map (fun a => match a with
                     | LoadProjects => [loadProjects]
                     | _ => []
                     end) acts.

Fixpoint setCall (i : nat) (p : prog unit) (calls : list (prog unit)) : list (prog unit) :=
  match calls, i with
  | [], _ => []
  | _ :: rest, O => p :: rest
  | q :: rest, S i' => q :: setCall i' p rest
  end.

Context {store : Type}.
Variable serve : request -> store -> outcome * store.

(** The page while calls are under way: the state of the backend, the
    calls, each waiting for a request or finished, and what has been seen
    so far, the requests in the order in which the backend handles them. *)
Record page := { backend : store; calls : list (prog unit); seen : list event }.

(** A click runs the handler up to its first request. *)
Definition click (handler : prog unit) (s : store) : page :=
  let '(acts, rest) := untilAwait handler in
  {| backend := s; calls := rest :: started acts; seen := map Did acts |}.

(** The backend handles the request that call [i] waits for, and the call
    goes on to its next request. *)
Definition settle (pg : page) (i : nat) : page :=
  match nth_error (calls pg) i with
  | Some (Await r k) =>
      let '(o, s1) := serve r (backend pg) in
      let '(acts, rest) := untilAwait (k o) in
      {| backend := s1;
         calls := setCall i rest (calls pg) ++ started acts;
         seen := seen pg ++ Issued r :: Settled o :: map Did acts |}
  | _ => pg
  end.

(** The handler of a click and the reloads it starts, their requests
    handled in the order that [schedule] gives. *)
Definition play (handler : prog unit) (schedule : list nat) (s : store) : page :=
  fold_left settle schedule (click handler s).

(** Every call has finished. *)
Definition quiet (pg : page) : bool :=
  forallb (fun p => match p with
                    | Await _ _ => false
                    | _ => true
                    end) (calls pg).

End Page.

(** The bodies of the PUT requests to a project, in order. *)
Definition putsTo (id : Z) (t : list event) : list body :=
  flat_map (fun r => match verb r, url r, sent r with
                     | PUT, ApiProject (Some id'), Some b => if id' =? id then [b] else []
                     | _, _, _ => []
                     end) (requests t).

Definition isStatus (b : body) : bool :=
  match b with
  | Status _ => true
  | _ => false
  end.

(** Every order in which two calls can take [n] turns. *)
Fixpoint schedules (n : nat) : list (list nat) :=
  match n with
  | O => [[]]
  | S n' => flat_map (fun schedule => [0%nat :: schedule; 1%nat :: schedule]) (schedules n')
  end.

(** The projects listing of a backend with one project, and markup that
    keeps the name of the project and the statuses of its tasks. *)
Definition oneProject (r : response) : option jsprojects :=
  Some (PArray [{| Project.id := Some 1; Project.name := "Alpha"; Project.status := "done" |}]).

Definition rowOf (t : task) : string := status t.

Definition cardOf (project : Project.t) (percent : progress) (rows : string) : string :=
  (Project.name project ++ rows)%string.

(** Project 1 after its task "Write tests" was saved. *)
Definition taskSaved (schedule : list nat) : page :=
  play oneProject rowOf cardOf (cannedBackend (JArray oneDone))
    (submitTaskBtn_click (Some 1) "Write tests" "done" "1") schedule [].

(** * Running composed functions *)

Ltac run_step :=
  unfold fetch, readJson, do;
  cbn [run bind tryCatch asArray noTasks
       result final events fst snd requests app].

Section RunLemmas.

Context {store : Type}.
Variable serve : request -> store -> outcome * store.

Lemma run_bind {A B : Type} (p : prog A) (f : A -> prog B) (s : store) :
  run serve (bind p f) s =
  match run serve p s with
  | (Returns a, s1, t) =>
      let '(c, s2, t2) := run serve (f a) s1 in (c, s2, t ++ t2)
  | (Throws e, s1, t) => (Throws e, s1, t)
  end.
Proof.
  revert s. induction p as [a|e|r k IH|a k IH]; intros s; cbn [bind run].
  - destruct (run serve (f a) s) as [[c s2] t2]. reflexivity.
  - reflexivity.
  - destruct (serve r s) as [o s1]. rewrite IH.
    destruct (run serve (k o) s1) as [[[a|e] s2] t]; [|reflexivity].
    destruct (run serve (f a) s2) as [[c s3] t2]. reflexivity.
  - rewrite IH.
    destruct (run serve k s) as [[[x|e] s2] t]; [|reflexivity].
    destruct (run serve (f x) s2) as [[c s3] t2]. reflexivity.
Qed.

Lemma run_tryCatch {A : Type} (p : prog A) (h : error -> prog A) (s : store) :
  run serve (tryCatch p h) s =
  match run serve p s with
  | (Returns a, s1, t) => (Returns a, s1, t)
  | (Throws e, s1, t) =>
      let '(c, s2, t2) := run serve (h e) s1 in (c, s2, t ++ t2)
  end.
Proof.
  revert s. induction p as [a|e|r k IH|a k IH]; intros s; cbn [tryCatch run].
  - reflexivity.
  - destruct (run serve (h e) s) as [[c s2] t2]. reflexivity.
  - destruct (serve r s) as [o s1]. rewrite IH.
    destruct (run serve (k o) s1) as [[[a|e] s2] t]; [reflexivity|].
    destruct (run serve (h e) s2) as [[c s3] t2]. reflexivity.
  - rewrite IH.
    destruct (run serve k s) as [[[x|e] s2] t]; [reflexivity|].
    destruct (run serve (h e) s2) as [[c s3] t2]. reflexivity.
Qed.

(** An [await] suspends the function: in every run each request settles
    before anything else happens. *)
Lemma run_sequential {A : Type} (p : prog A) (s : store) :
  sequential (events serve p s).
Proof.
  unfold events. revert s.
  induction p as [a|e|r k IH|a k IH]; intros s; cbn [run].
  - exact I.
  - exact I.
  - destruct (serve r s) as [o s1]. specialize (IH o s1).
    destruct (run serve (k o) s1) as [[c s2] t]. exact IH.
  - specialize (IH s). destruct (run serve k s) as [[c s1] t]. exact IH.
Qed.

End RunLemmas.

Lemma requests_app (t1 t2 : list event) :
  requests (t1 ++ t2) = requests t1 ++ requests t2.
Proof.
  induction t1 as [|[r|o|a] t1 IH]; cbn [requests app];
    [reflexivity| |assumption|assumption].
  now rewrite IH.
Qed.

(** * What each function asks of the backend *)

Section Calls.

Context {store : Type}.
Variable serve : request -> store -> outcome * store.

Lemma run_calculateProjectProgress projectId s l s1 :
  lists serve projectId s l s1 ->
  result serve (calculateProjectProgress projectId) s =
  Returns (match l with
           | [] => PNumber 0%float
           | _ => PString (toFixed2 (completionProgress l))
           end).
Proof.
  intros (resp & Hs & Hj).
  unfold result, calculateProjectProgress, tasksRequest in *. run_step.
  rewrite Hs. run_step. rewrite Hj. run_step.
  destruct l; reflexivity.
Qed.

Lemma run_updateProjectProgress projectId progress s :
  exists t,
    run serve (updateProjectProgress projectId progress) s =
    (Returns tt,
     snd (serve (put (ApiProject projectId) (CompletionProgress progress)) s),
     Issued (put (ApiProject projectId) (CompletionProgress progress))
     :: Settled (fst (serve (put (ApiProject projectId) (CompletionProgress progress)) s))
     :: t) /\
    requests t = [].
Proof.
  unfold updateProjectProgress. run_step.
  destruct (serve _ s) as [[|resp] s1]; run_step.
  - eexists. split; reflexivity.
  - destruct (ok resp); run_step; eexists; split; reflexivity.
Qed.

Lemma run_updateProjectStatus_listed projectId s l s1 :
  lists serve projectId s l s1 ->
  exists t,
    run serve (updateProjectStatus projectId) s =
    (Returns tt,
     snd (serve (statusRequest projectId l) s1),
     Issued (tasksRequest projectId)
     :: Settled (fst (serve (tasksRequest projectId) s))
     :: Issued (statusRequest projectId l)
     :: Settled (fst (serve (statusRequest projectId l) s1))
     :: t) /\
    requests t = [].
Proof.
  intros (resp & Hs & Hj).
  unfold updateProjectStatus, statusRequest, tasksRequest in *. run_step.
  rewrite Hs. run_step. rewrite Hj. run_step.
  destruct (serve _ s1) as [[|resp2] s2]; run_step.
  - eexists. split; reflexivity.
  - destruct (ok resp2); run_step; eexists; split; reflexivity.
Qed.

(** Whatever the backend answers, [updateProjectStatus] returns, and the
    only requests it makes are the listing and then at most one status
    update. *)
Lemma run_updateProjectStatus projectId s :
  exists s2 t,
    run serve (updateProjectStatus projectId) s = (Returns tt, s2, t) /\
    (requests t = [tasksRequest projectId] \/
     exists l, requests t = [tasksRequest projectId; statusRequest projectId l]).
Proof.
  unfold updateProjectStatus, statusRequest, tasksRequest. run_step.
  destruct (serve _ s) as [[|resp] s1]; run_step.
  - do 2 eexists. split; [reflexivity|left; reflexivity].
  - destruct (json resp) as [[| l |]|]; run_step;
      try (do 2 eexists; split; [reflexivity|left; reflexivity]).
    destruct (serve _ s1) as [[|resp2] s2]; run_step.
    + do 2 eexists. split; [reflexivity|right; exists l; reflexivity].
    + destruct (ok resp2); run_step;
        do 2 eexists; (split; [reflexivity|right; exists l; reflexivity]).
Qed.

Lemma updateProjectProgress_returns projectId progress s :
  result serve (updateProjectProgress projectId progress) s = Returns tt.
Proof.
  destruct (run_updateProjectProgress projectId progress s) as (t & E & _).
  unfold result. now rewrite E.
Qed.

Lemma updateProjectStatus_returns projectId s :
  result serve (updateProjectStatus projectId) s = Returns tt.
Proof.
  destruct (run_updateProjectStatus projectId s) as (s2 & t & E & _).
  unfold result. now rewrite E.
Qed.

(** A project without tasks: the listing is the only request. *)
Lemma run_calculateAndUpdate_empty id s s1 :
  lists serve (Some id) s [] s1 ->
  run serve (calculateAndUpdateProjectProgress (Some id)) s =
  (Returns None, s1,
   [Issued (tasksRequest (Some id));
    Settled (fst (serve (tasksRequest (Some id)) s));
    Did (ConsoleLog "has no tasks.")]).
Proof.
  intros (resp & Hs & Hj).
  unfold calculateAndUpdateProjectProgress, tasksRequest in *. run_step.
  rewrite Hs. run_step. rewrite Hj. run_step. reflexivity.
Qed.

(** A project with tasks: the listing, the progress update awaited to its
    end, then everything [updateProjectStatus] does. *)
Lemma run_calculateAndUpdate_listed id s l s1 :
  lists serve (Some id) s l s1 -> l <> [] ->
  exists t,
    let s2 := snd (serve (progressRequest (Some id) l) s1) in
    run serve (calculateAndUpdateProjectProgress (Some id)) s =
    (Returns None,
     final serve (updateProjectStatus (Some id)) s2,
     Issued (tasksRequest (Some id))
     :: Settled (fst (serve (tasksRequest (Some id)) s))
     :: Issued (progressRequest (Some id) l)
     :: Settled (fst (serve (progressRequest (Some id) l) s1))
     :: t ++ events serve (updateProjectStatus (Some id)) s2) /\
    requests t = [].
Proof.
  intros (resp & Hs & Hj) Hl.
  destruct (run_updateProjectProgress (Some id)
              (toFixed2 (completionProgress l)) s1) as (t & Ep & Ht).
  exists t. split; [|exact Ht].
  unfold calculateAndUpdateProjectProgress, tasksRequest, progressRequest in *.
  run_step. rewrite Hs. run_step. rewrite Hj.
  destruct l as [|t0 l]; [congruence|]. run_step.
  rewrite run_tryCatch, run_bind, Ep, run_bind.
  pose proof (updateProjectStatus_returns (Some id)
    (snd (serve (put (ApiProject (Some id))
       (CompletionProgress (toFixed2 (completionProgress (t0 :: l))))) s1))) as Hr.
  unfold result, final, events in *.
  destruct (run serve (updateProjectStatus (Some id)) _) as [[c s3] t3].
  cbn [fst snd] in *. subst c. cbn [run]. cbn [fst snd app].
  rewrite app_nil_r. reflexivity.
Qed.

Lemma calculateAndUpdate_returns projectId s :
  exists v, result serve (calculateAndUpdateProjectProgress projectId) s = Returns v.
Proof.
  destruct projectId as [id|]; [|eexists; reflexivity].
  unfold result, calculateAndUpdateProjectProgress. run_step.
  destruct (serve _ s) as [[|resp] s1]; run_step; [eexists; reflexivity|].
  destruct (json resp) as [[| l |]|]; run_step; try (eexists; reflexivity).
  destruct l as [|t0 l]; run_step; [eexists; reflexivity|].
  rewrite run_tryCatch, run_bind.
  pose proof (updateProjectProgress_returns (Some id)
                (toFixed2 (completionProgress (t0 :: l))) s1) as Hp.
  unfold result in Hp.
  destruct (run serve (updateProjectProgress _ _) s1) as [[c s2] t2].
  cbn [fst] in Hp. subst c. rewrite run_bind.
  pose proof (updateProjectStatus_returns (Some id) s2) as Hq.
  unfold result in Hq.
  destruct (run serve (updateProjectStatus _) s2) as [[c s3] t3].
  cbn [fst] in Hq. subst c. cbn [run fst]. eexists; reflexivity.
Qed.

End Calls.

(** * Binary64 addition on whole numbers *)

Lemma shl_S p k : shl p (S k) = xO (shl p k).
Proof. reflexivity. Qed.

Lemma Pos_iter_shl p d : Pos.iter xO p d = shl p (Pos.to_nat d).
Proof. unfold shl. now rewrite Pos2Nat.inj_iter. Qed.

Lemma shl_shl p a b : shl (shl p a) b = shl p (b + a).
Proof. unfold shl. now rewrite Nat.iter_add. Qed.

Lemma shl_add p q k : shl (p + q) k = (shl p k + shl q k)%positive.
Proof.
  induction k as [|k IH]; [reflexivity|].
  rewrite !shl_S, IH. reflexivity.
Qed.

Lemma digits_shl p k :
  Zpos (digits2_pos (shl p k)) = Zpos (digits2_pos p) + Z.of_nat k.
Proof.
  induction k as [|k IH].
  - simpl. lia.
  - rewrite shl_S. simpl digits2_pos. rewrite Pos2Z.inj_succ, IH. lia.
Qed.

Lemma digits_lower p : 2 ^ (Zpos (digits2_pos p) - 1) <= Zpos p.
Proof.
  induction p as [p IH|p IH|]; simpl digits2_pos.
  - rewrite Pos2Z.inj_succ.
    replace (Z.succ (Zpos (digits2_pos p)) - 1) with (Z.succ (Zpos (digits2_pos p) - 1)) by lia.
    rewrite Z.pow_succ_r by lia. lia.
  - rewrite Pos2Z.inj_succ.
    replace (Z.succ (Zpos (digits2_pos p)) - 1) with (Z.succ (Zpos (digits2_pos p) - 1)) by lia.
    rewrite Z.pow_succ_r by lia. lia.
  - simpl. lia.
Qed.

Lemma digits_le p n : 0 <= n -> Zpos p < 2 ^ n -> Zpos (digits2_pos p) <= n.
Proof.
  intros Hn Hp.
  destruct (Z_le_gt_dec (Zpos (digits2_pos p)) n) as [|Hgt]; [assumption|].
  pose proof (digits_lower p) as Hl.
  assert (2 ^ n <= 2 ^ (Zpos (digits2_pos p) - 1)) by (apply Z.pow_le_mono_r; lia).
  lia.
Qed.

Lemma iter_pos_nat {A : Type} (f : A -> A) j x :
  iter_pos f j x = Nat.iter (Pos.to_nat j) f x.
Proof.
  revert x. induction j as [j IH|j IH|]; intros x; simpl iter_pos.
  - rewrite !IH, Pos2Nat.inj_xI.
    replace (S (2 * Pos.to_nat j)) with (Pos.to_nat j + (Pos.to_nat j + 1))%nat by lia.
    rewrite !Nat.iter_add. reflexivity.
  - rewrite !IH, Pos2Nat.inj_xO.
    replace (2 * Pos.to_nat j)%nat with (Pos.to_nat j + Pos.to_nat j)%nat by lia.
    rewrite Nat.iter_add. reflexivity.
  - reflexivity.
Qed.

(** Shifting out bits that are zero loses nothing. *)
Lemma shr_shl p k j :
  Nat.iter j shr_1 (Build_shr_record (Zpos (shl p (j + k))) false false)
  = Build_shr_record (Zpos (shl p k)) false false.
Proof.
  induction j as [|j IH]; [reflexivity|].
  rewrite Nat.iter_succ_r. simpl Nat.add. rewrite shl_S. simpl shr_1. exact IH.
Qed.

Lemma shr_fexp_canonical m e :
  Zpos (digits2_pos m) = 53 -> -1074 <= e ->
  shr_fexp prec emax (Zpos m) e loc_Exact
  = (Build_shr_record (Zpos m) false false, e).
Proof.
  intros Hm He.
  unfold shr_fexp, Zdigits2, fexp, emin, prec, emax. rewrite Hm.
  replace (Z.max (53 + e - 53) (3 - 1024 - 53) - e) with 0 by lia.
  reflexivity.
Qed.

Lemma round_aux_shifted M e m e' :
  shr_fexp prec emax (Zpos M) e loc_Exact
  = (Build_shr_record (Zpos m) false false, e') ->
  Zpos (digits2_pos m) = 53 -> -1074 <= e' <= 971 ->
  binary_round_aux prec emax false (Zpos M) e loc_Exact = S754_finite false m e'.
Proof.
  intros Hs Hm He.
  unfold binary_round_aux. rewrite Hs.
  cbn [shr_m loc_of_shr_record round_nearest_even].
  rewrite shr_fexp_canonical by lia.
  cbn [shr_m]. unfold prec, emax.
  replace (e' <=? 1024 - 53) with true by (symmetry; apply Z.leb_le; lia).
  reflexivity.
Qed.

Lemma round_aux_canonical m e :
  Zpos (digits2_pos m) = 53 -> -1074 <= e <= 971 ->
  binary_round_aux prec emax false (Zpos m) e loc_Exact = S754_finite false m e.
Proof.
  intros Hm He. apply round_aux_shifted; [|assumption|assumption].
  apply shr_fexp_canonical; lia.
Qed.

Lemma binary_round_shl p k :
  Zpos (digits2_pos p) <= 53 ->
  binary_round prec emax false (shl p k) (- Z.of_nat k) = whole p.
Proof.
  intros Hd.
  assert (Hd1 : 1 <= Zpos (digits2_pos p)) by lia.
  assert (Hw : Zpos (digits2_pos (shl p (Z.to_nat (53 - Zpos (digits2_pos p))))) = 53)
    by (rewrite digits_shl; lia).
  unfold binary_round, shl_align.
  rewrite digits_shl.
  unfold fexp, emin. change prec with 53. change emax with 1024.
  remember (Zpos (digits2_pos p)) as d eqn:Ed.
  replace (Z.max (d + Z.of_nat k + - Z.of_nat k - 53) (3 - 1024 - 53)) with (d - 53) by lia.
  destruct (d - 53 - - Z.of_nat k) as [|j|j] eqn:Hj.
  - replace (- Z.of_nat k) with (d - 53) by lia.
    replace k with (Z.to_nat (53 - d)) by lia.
    unfold whole. rewrite <- Ed. apply round_aux_canonical; [assumption|lia].
  - unfold whole. rewrite <- Ed. apply round_aux_shifted; [|assumption|lia].
    unfold shr_fexp, Zdigits2. rewrite digits_shl, <- Ed.
    unfold fexp, emin, prec, emax.
    replace (Z.max (d + Z.of_nat k + - Z.of_nat k - 53) (3 - 1024 - 53) - - Z.of_nat k)
      with (Zpos j) by lia.
    unfold shr. cbn [shr_record_of_loc].
    rewrite iter_pos_nat.
    replace k with (Pos.to_nat j + Z.to_nat (53 - d))%nat at 1 by lia.
    rewrite shr_shl. f_equal. lia.
  - rewrite Pos_iter_shl, shl_shl.
    replace (Pos.to_nat j + k)%nat with (Z.to_nat (53 - d)) by lia.
    unfold whole. rewrite <- Ed. apply round_aux_canonical; [assumption|lia].
Qed.

Lemma normalize_whole p :
  Zpos p < 2 ^ 53 ->
  binary_normalize prec emax (Zpos p) 0 false = whole p.
Proof.
  intros Hp. unfold binary_normalize.
  apply (binary_round_shl p 0). apply digits_le; lia.
Qed.

Lemma shl_align_whole r K :
  Zpos (digits2_pos r) <= 53 ->
  (Z.to_nat (53 - Zpos (digits2_pos r)) <= K)%nat ->
  fst (shl_align (shl r (Z.to_nat (53 - Zpos (digits2_pos r))))
         (Zpos (digits2_pos r) - 53) (- Z.of_nat K))
  = shl r K.
Proof.
  intros Hr HK. unfold shl_align.
  remember (Zpos (digits2_pos r)) as d eqn:Ed.
  assert (1 <= d) by lia.
  destruct (- Z.of_nat K - (d - 53)) as [|j|j] eqn:Hj; cbn [fst].
  - f_equal. lia.
  - lia.
  - rewrite Pos_iter_shl, shl_shl. f_equal. lia.
Qed.

(** Adding two integers whose sum is below 2^53 is exact. *)
Lemma SFadd_whole a b :
  0 <= a -> 0 <= b -> a + b < 2 ^ 53 ->
  SFadd prec emax (binary_normalize prec emax a 0 false)
                  (binary_normalize prec emax b 0 false)
  = binary_normalize prec emax (a + b) 0 false.
Proof.
  intros Ha Hb Hab.
  destruct a as [|p|p]; [|destruct b as [|q|q]|]; try lia.
  - simpl binary_normalize at 1. simpl Z.add.
    destruct b as [|q|q]; try lia; [reflexivity|].
    rewrite normalize_whole by lia. reflexivity.
  - rewrite Z.add_0_r. rewrite normalize_whole by lia. reflexivity.
  - assert (Hp : Zpos (digits2_pos p) <= 53) by (apply digits_le; lia).
    assert (Hq : Zpos (digits2_pos q) <= 53) by (apply digits_le; lia).
    rewrite (normalize_whole p), (normalize_whole q) by lia.
    change (Zpos p + Zpos q) with (Zpos (p + q)).
    rewrite (normalize_whole (p + q)) by lia.
    unfold whole at 1 2, SFadd.
    remember (Z.to_nat (53 - Z.min (Zpos (digits2_pos p)) (Zpos (digits2_pos q)))) as K eqn:EK.
    replace (Z.min (Zpos (digits2_pos p) - 53) (Zpos (digits2_pos q) - 53))
      with (- Z.of_nat K) by lia.
    rewrite (shl_align_whole p K), (shl_align_whole q K) by lia.
    cbn [cond_Zopp]. change (Zpos (shl p K) + Zpos (shl q K)) with (Zpos (shl p K + shl q K)).
    rewrite <- shl_add. unfold binary_normalize.
    apply binary_round_shl. apply digits_le; lia.
Qed.

Lemma Prim2SF_ofZ n :
  0 <= n < 2 ^ 53 ->
  Prim2SF (ofZ n) = binary_normalize prec emax n 0 false.
Proof.
  intros Hn. unfold ofZ.
  rewrite of_uint63_spec, Uint63.of_Z_spec.
  rewrite Z.mod_small; [reflexivity|].
  change Uint63.wB with (2 ^ 63).
  assert (2 ^ 53 < 2 ^ 63) by (apply Z.pow_lt_mono_r; lia). lia.
Qed.

Lemma add_ofZ a b :
  0 <= a -> 0 <= b -> a + b < 2 ^ 53 ->
  (ofZ a + ofZ b)%float = ofZ (a + b).
Proof.
  intros Ha Hb Hab. apply Prim2SF_inj.
  rewrite FloatAxioms.add_spec, !Prim2SF_ofZ by lia.
  apply SFadd_whole; assumption.
Qed.

(** * The submit handlers *)

Section Handlers.

Context {store : Type}.
Variable serve : request -> store -> outcome * store.

(** After the first request succeeded, a task handler starts the reload,
    hides its modal, and then does everything
    [calculateAndUpdateProjectProgress] does followed by everything
    [updateProjectStatus] does. *)
Lemma events_after_task_saved (projectId : ident) (h : error -> prog unit) (s : store) :
  events serve
    (tryCatch
       (calculateAndUpdateProjectProgress projectId ;;
        updateProjectStatus projectId) h) s
  = events serve (calculateAndUpdateProjectProgress projectId) s
    ++ events serve (updateProjectStatus projectId)
         (final serve (calculateAndUpdateProjectProgress projectId) s).
Proof.
  unfold events, final. rewrite run_tryCatch, run_bind.
  destruct (calculateAndUpdate_returns serve projectId s) as (v & Hv).
  unfold result in Hv.
  destruct (run serve (calculateAndUpdateProjectProgress projectId) s) as [[c s1] t].
  cbn [fst snd] in *. subst c.
  pose proof (updateProjectStatus_returns serve projectId s1) as Hq.
  unfold result in Hq.
  destruct (run serve (updateProjectStatus projectId) s1) as [[c s2] t2].
  cbn [fst] in Hq. subst c. reflexivity.
Qed.

Lemma events_submitTaskBtn_saved currentProjectId taskName taskStatus taskWeight s resp s1 :
  serve (post ApiTasks (NewTask currentProjectId taskName taskStatus taskWeight)) s
  = (Fulfilled resp, s1) ->
  ok resp = true ->
  events serve (submitTaskBtn_click currentProjectId taskName taskStatus taskWeight) s
  = Issued (post ApiTasks (NewTask currentProjectId taskName taskStatus taskWeight))
    :: Settled (Fulfilled resp)
    :: Did LoadProjects
    :: Did (ModalHide "addTaskModal")
    :: events serve (calculateAndUpdateProjectProgress currentProjectId) s1
       ++ events serve (updateProjectStatus currentProjectId)
            (final serve (calculateAndUpdateProjectProgress currentProjectId) s1).
Proof.
  intros Hs Hok.
  rewrite <- (events_after_task_saved currentProjectId
    (fun _ => do (ConsoleError "Error adding task:") ;; do (Alert "Error adding task."))).
  unfold events, submitTaskBtn_click. run_step. rewrite Hs. run_step. rewrite Hok. run_step.
  destruct (run serve _ s1) as [[c s2] t]. reflexivity.
Qed.

Lemma events_submitEditTaskBtn_saved currentProjectId currentTaskId
    taskName taskStatus taskWeight s resp s1 :
  serve (put (ApiTask currentTaskId) (TaskFields taskName taskStatus taskWeight)) s
  = (Fulfilled resp, s1) ->
  ok resp = true ->
  events serve
    (submitEditTaskBtn_click currentProjectId currentTaskId taskName taskStatus taskWeight) s
  = Issued (put (ApiTask currentTaskId) (TaskFields taskName taskStatus taskWeight))
    :: Settled (Fulfilled resp)
    :: Did LoadProjects
    :: Did (ModalHide "editTaskModal")
    :: events serve (calculateAndUpdateProjectProgress currentProjectId) s1
       ++ events serve (updateProjectStatus currentProjectId)
            (final serve (calculateAndUpdateProjectProgress currentProjectId) s1).
Proof.
  intros Hs Hok.
  rewrite <- (events_after_task_saved currentProjectId
    (fun _ => do (ConsoleError "Error editing task:") ;; do (Alert "Error editing task."))).
  unfold events, submitEditTaskBtn_click. run_step. rewrite Hs. run_step. rewrite Hok. run_step.
  destruct (run serve _ s1) as [[c s2] t]. reflexivity.
Qed.

End Handlers.

(** * The status rollup *)

Lemma forallb_isDone tasks :
  forallb isDone tasks = true <-> Forall (fun t => status t = "done") tasks.
Proof.
  rewrite forallb_forall, Forall_forall. unfold isDone.
  split; intros H t Ht; apply String.eqb_eq, H, Ht.
Qed.

Lemma existsb_isInProgress tasks :
  existsb isInProgress tasks = true
  <-> Exists (fun t => status t = "in progress") tasks.
Proof.
  rewrite existsb_exists, Exists_exists. unfold isInProgress.
  split; intros (t & Ht & H); exists t; (split; [exact Ht|]); apply String.eqb_eq, H.
Qed.

(** C1. For every task list, the status that [updateProjectStatus] computes
    and sends is the reference rollup: "done" exactly when every task is
    "done" (checked first, so also for the empty list); otherwise
    "in progress" exactly when some task is "in progress"; otherwise
    "draft". *)
Theorem status_rollup_is_reference (tasks : list task) :
  (projectStatus tasks = "done"
   <-> Forall (fun t => status t = "done") tasks) /\
  (projectStatus tasks = "in progress"
   <-> ~ Forall (fun t => status t = "done") tasks /\
       Exists (fun t => status t = "in progress") tasks) /\
  (projectStatus tasks = "draft"
   <-> ~ Forall (fun t => status t = "done") tasks /\
       ~ Exists (fun t => status t = "in progress") tasks) /\
  (forall (store : Type) (serve : request -> store -> outcome * store)
          (projectId : ident) (s s1 : store),
      lists serve projectId s tasks s1 ->
      requests (events serve (updateProjectStatus projectId) s)
      = [get (ApiTasksOfProject projectId);
         put (ApiProject projectId) (Status (projectStatus tasks))]).
Proof.
  rewrite <- forallb_isDone, <- existsb_isInProgress. unfold projectStatus.
  repeat split.
  - destruct (forallb isDone tasks); [reflexivity|].
    destruct (existsb isInProgress tasks); discriminate.
  - now intros ->.
  - destruct (forallb isDone tasks); discriminate.
  - destruct (forallb isDone tasks); [discriminate|].
    destruct (existsb isInProgress tasks); [reflexivity|discriminate].
  - intros [Hd Hp].
    destruct (forallb isDone tasks); [now elim Hd|]. now rewrite Hp.
  - destruct (forallb isDone tasks); discriminate.
  - destruct (forallb isDone tasks); [discriminate|].
    destruct (existsb isInProgress tasks); discriminate.
  - intros [Hd Hp].
    destruct (forallb isDone tasks); [now elim Hd|].
    destruct (existsb isInProgress tasks); [now elim Hp|reflexivity].
  - intros store serve projectId s s1 Hl.
    destruct (run_updateProjectStatus_listed serve projectId s tasks s1 Hl)
      as (t & E & Ht).
    unfold events. rewrite E. cbn [snd requests]. rewrite Ht. reflexivity.
Qed.

(** * The completion percentage *)

Lemma forEachWeight_from (tasks : list task) (a c : number) :
  fold_left addWeight tasks (a, c)
  = (fold_left (fun acc t => (acc + weight t)%float) tasks a,
     fold_left (fun acc t => (acc + weight t)%float) (filter isDone tasks) c).
Proof.
  revert a c. induction tasks as [|t tasks IH]; intros a c; [reflexivity|].
  cbn [fold_left filter addWeight]. rewrite IH. now destruct (isDone t).
Qed.

(** The loop leaves the two sums of the reference definition. *)
Lemma forEachWeight_sums (tasks : list task) :
  forEachWeight tasks = (sumWeights tasks, sumWeights (filter isDone tasks)).
Proof. apply forEachWeight_from. Qed.

(** What [toFixed(2)] keeps of [x = m * 2^e] when [e] is negative (for the
    other doubles [100 * x] is an integer): [n <= 100 * x + 1/2 < n + 1]
    for [n = hundredths m e], that is the nearest integer to [100 * x],
    the larger one from the middle. *)
Lemma hundredths_nearest (m : positive) (e : Z) :
  e < 0 ->
  2 ^ (1 - e) * hundredths m e <= 200 * Zpos m + 2 ^ (- e)
  < 2 ^ (1 - e) * (hundredths m e + 1).
Proof.
  intros He. unfold hundredths.
  replace (0 <=? e) with false by (symmetry; apply Z.leb_gt; lia).
  assert (0 < 2 ^ (1 - e)) by (apply Z.pow_pos_nonneg; lia).
  pose proof (Z.mul_div_le (200 * Zpos m + 2 ^ (- e)) (2 ^ (1 - e))).
  pose proof (Z.mul_succ_div_gt (200 * Zpos m + 2 ^ (- e)) (2 ^ (1 - e))).
  lia.
Qed.

(** The scenarios of the specification. *)
Example scenario_half_done :
  toFixed2 (completionProgress twoOfFour) = "50.00" /\
  projectStatus twoOfFour = "draft".
Proof. split; reflexivity. Qed.

Example scenario_all_done :
  toFixed2 (completionProgress
    [{| status := "done"; weight := 1%float |};
     {| status := "done"; weight := 1%float |}]) = "100.00" /\
  projectStatus
    [{| status := "done"; weight := 1%float |};
     {| status := "done"; weight := 1%float |}] = "done".
Proof. split; reflexivity. Qed.

Example scenario_in_progress :
  toFixed2 (completionProgress
    [{| status := "in progress"; weight := 3%float |}]) = "0.00" /\
  projectStatus [{| status := "in progress"; weight := 3%float |}] = "in progress".
Proof. split; reflexivity. Qed.

(** The quotient and the product are rounded before [toFixed] looks at
    them: 23 of 160 is 14.375, the doubles make it 14.374999999999998. *)
Example scenario_rounded_twice :
  toFixed2 (completionProgress
    [{| status := "done"; weight := 23%float |};
     {| status := "draft"; weight := 137%float |}]) = "14.37".
Proof. reflexivity. Qed.

Lemma canned_lists (l : list task) (projectId : ident) (s : list request) :
  lists (cannedBackend (JArray l)) projectId s l s.
Proof. exists (cannedResponse (JArray l)). split; reflexivity. Qed.

Lemma digitsOnly_uint d : digitsOnly (NilEmpty.string_of_uint d) = true.
Proof. induction d; cbn [NilEmpty.string_of_uint digitsOnly]; try rewrite IHd; reflexivity. Qed.

Lemma digitsOnly_decimal n : digitsOnly (decimal n) = true.
Proof.
  unfold decimal, NilZero.string_of_uint.
  destruct (N.to_uint (Z.to_N n)) eqn:E; try reflexivity;
    rewrite <- E; rewrite E; apply (digitsOnly_uint).
Qed.

Lemma splitAtPoint_app (a b : string) :
  digitsOnly a = true -> splitAtPoint (a ++ String "." b) = Some (a, b).
Proof.
  induction a as [|c a IH]; intros Ha; [reflexivity|].
  cbn [digitsOnly] in Ha. apply andb_prop in Ha as [Hc Ha].
  cbn [append splitAtPoint]. rewrite (IH Ha).
  destruct (Ascii.eqb c ".") eqn:E; [|reflexivity].
  apply Ascii.eqb_eq in E. subst c. discriminate.
Qed.

Lemma readDigits_decimal (n : Z) : 0 <= n -> readDigits (decimal n) = Some n.
Proof.
  intros Hn. unfold readDigits, decimal.
  rewrite NilZero.usu.
  - rewrite DecimalN.Unsigned.of_to. f_equal. lia.
  - destruct (Z.to_N n); [discriminate|apply DecimalPos.Unsigned.to_uint_nonnil].
Qed.

(** A decimal does not begin with a minus sign. *)
Lemma decimal_not_minus (n : Z) (rest : string) :
  match (decimal n ++ rest)%string with
  | String "-" r => (true, r)
  | _ => (false, (decimal n ++ rest)%string)
  end = (false, (decimal n ++ rest)%string).
Proof.
  pose proof (digitsOnly_decimal n) as Hd.
  assert (Hne : decimal n <> EmptyString).
  { intros E. pose proof (readDigits_decimal (Z.max n 0)) as H.
    unfold decimal in *. replace (Z.to_N (Z.max n 0)) with (Z.to_N n) in H by lia.
    rewrite E in H. cbn in H. specialize (H ltac:(lia)). discriminate. }
  destruct (decimal n) as [|c r]; [congruence|].
  cbn [digitsOnly] in Hd. apply andb_prop in Hd as [Hc _].
  cbn [append].
  destruct c as [[] [] [] [] [] [] [] []]; try reflexivity; discriminate.
Qed.

Lemma twoDigits_below_100 (f : Z) : 0 <= f < 100 -> twoDigits f = true.
Proof.
  intros Hf.
  assert (H : forallb twoDigits (map Z.of_nat (seq 0 100)) = true) by (vm_compute; reflexivity).
  rewrite forallb_forall in H. apply H.
  apply in_map_iff. exists (Z.to_nat f). split; [lia|].
  apply in_seq. lia.
Qed.

(** What [fixedDigits] writes reads back as the number it was given. *)
Lemma readFixed_fixedDigits (sg : bool) (n : Z) :
  0 <= n ->
  readFixed ((if sg then "-" else "") ++ fixedDigits n) = Some (sg, n).
Proof.
  intros Hn.
  assert (Hbody : match splitAtPoint (fixedDigits n) with
                  | Some (whole, fraction) =>
                      match readDigits whole, readDigits fraction with
                      | Some a, Some b =>
                          if (String.length fraction =? 2)%nat
                          then Some (sg, 100 * a + b) else None
                      | _, _ => None
                      end
                  | None => None
                  end = Some (sg, n)).
  { unfold fixedDigits. cbn [append].
    rewrite splitAtPoint_app by apply digitsOnly_decimal.
    rewrite readDigits_decimal by (apply Z.div_pos; lia).
    pose proof (twoDigits_below_100 (n mod 100) ltac:(apply Z.mod_pos_bound; lia)) as H2.
    unfold twoDigits in H2.
    destruct (readDigits _) as [b|]; [|discriminate].
    apply andb_prop in H2 as [Hb Hlen]. rewrite Hlen.
    apply Z.eqb_eq in Hb. subst b. f_equal. f_equal.
    pose proof (Z.div_mod n 100). lia. }
  unfold readFixed. destruct sg.
  - cbn [append]. exact Hbody.
  - cbn [append]. unfold fixedDigits in *.
    rewrite decimal_not_minus. exact Hbody.
Qed.

Lemma hundredths_nonneg (m : positive) (e : Z) : 0 <= hundredths m e.
Proof.
  unfold hundredths. destruct (0 <=? e) eqn:E.
  - apply Z.mul_nonneg_nonneg; [lia|apply Z.pow_nonneg; lia].
  - apply Z.leb_gt in E.
    apply Z.div_pos; [|apply Z.pow_pos_nonneg; lia].
    pose proof (Z.pow_nonneg 2 (- e)). lia.
Qed.

Lemma hundredths_roundedTo2 (m : positive) (e : Z) :
  roundedTo2 (Zpos m * 2 ^ Z.max e 0) (2 ^ Z.max (- e) 0) (hundredths m e).
Proof.
  unfold roundedTo2. destruct (Z.le_gt_cases 0 e) as [He|He].
  - unfold hundredths. replace (0 <=? e) with true by (symmetry; apply Z.leb_le; lia).
    rewrite (Z.max_l e 0), (Z.max_r (- e) 0) by lia.
    change (2 ^ 0) with 1. lia.
  - pose proof (hundredths_nearest m e He) as H.
    rewrite (Z.max_r e 0), (Z.max_l (- e) 0) by lia.
    change (2 ^ 0) with 1.
    replace (2 ^ (1 - e)) with (2 * 2 ^ (- e)) in H
      by (replace (1 - e) with (Z.succ (- e)) by lia; rewrite Z.pow_succ_r by lia; reflexivity).
    lia.
Qed.

(** [toFixed(2)] of a number below [10^21] in size reads back as the
    number rounded to two decimals, with its sign. *)
Lemma toFixed2_rounds (x : number) (num den : Z) :
  magnitude x = Some (num, den) ->
  num < 10 ^ 21 * den ->
  exists n,
    readFixed (toFixed2 x) = Some (isNegative x, n) /\ roundedTo2 num den n.
Proof.
  unfold magnitude, isNegative, toFixed2.
  destruct (Prim2SF x) as [sg|sg| |sg m e]; try discriminate.
  - intros E _. injection E as <- <-. exists 0. split; [reflexivity|].
    unfold roundedTo2. lia.
  - intros E Hlt.
    assert (Hnum : num = Zpos m * 2 ^ Z.max e 0) by congruence.
    assert (Hden : den = 2 ^ Z.max (- e) 0) by congruence.
    subst num den. clear E.
    exists (hundredths m e). split; [|apply hundredths_roundedTo2].
    replace (exponential m e) with false.
    { apply readFixed_fixedDigits, hundredths_nonneg. }
    symmetry. unfold exponential. apply andb_false_iff.
    destruct (Z.le_gt_cases 0 e) as [He|He].
    + right. apply Z.leb_gt.
      rewrite (Z.max_l e 0), (Z.max_r (- e) 0) in Hlt by lia.
      change (2 ^ 0) with 1 in Hlt. lia.
    + left. apply Z.leb_gt. exact He.
Qed.

(** C2 fails on the code as stated: 23 of 160 is 14.375 exactly, which
    rounds to 14.38, but the quotient of the two doubles times 100 is
    14.374999999999998, and [toFixed(2)] makes "14.37" of it. *)
Lemma progress_rounds_the_double_not_the_ratio :
  doneZ twentyThreeOf160 = 23 /\
  totalZ twentyThreeOf160 = 160 /\
  roundedTo2 (100 * 23) 160 1438 /\
  ~ roundedTo2 (100 * 23) 160 1437 /\
  result listingBackend (calculateProjectProgress (Some 1)) twentyThreeOf160
  = Returns (PString "14.37") /\
  readFixed "14.37" = Some (false, 1437).
Proof.
  split; [reflexivity|]. split; [reflexivity|].
  split; [unfold roundedTo2; lia|].
  split; [unfold roundedTo2; lia|].
  split; [vm_compute; reflexivity|reflexivity].
Qed.

(** C2, amended. For every non-empty task list the backend lists, let
    [p] be the sum of the weights of the "done" tasks divided by the sum
    of all weights, times 100, the sums (in list order), the quotient and
    the product being the rounded ones of JavaScript numbers. When [p] is
    finite and below [10^21] in size, [calculateProjectProgress] returns
    [p] rounded to 2 decimal places: a decimal with two fraction digits
    and the sign of [p], whose hundredths are the integer nearest to
    [100 * p] in size, the larger one when two are as near. *)
Theorem progress_is_rounded_double
    (store : Type) (serve : request -> store -> outcome * store)
    (projectId : ident) (s s1 : store) (tasks : list task) (num den : Z) :
  lists serve projectId s tasks s1 ->
  tasks <> [] ->
  magnitude (percentDone tasks) = Some (num, den) ->
  num < 10 ^ 21 * den ->
  exists str n,
    result serve (calculateProjectProgress projectId) s = Returns (PString str) /\
    readFixed str = Some (isNegative (percentDone tasks), n) /\
    roundedTo2 num den n.
Proof.
  intros Hl Hne Hm Hlt.
  destruct (toFixed2_rounds _ num den Hm Hlt) as (n & Hread & Hn).
  exists (toFixed2 (percentDone tasks)), n. split; [|split; assumption].
  rewrite (run_calculateProjectProgress serve projectId s tasks s1 Hl).
  destruct tasks as [|t tasks]; [congruence|].
  unfold completionProgress, percentDone. rewrite forEachWeight_sums. reflexivity.
Qed.

Lemma progress_is_rounded_double_witness :
  lists (cannedBackend (JArray twentyThreeOf160)) (Some 1) [] twentyThreeOf160 [] /\
  twentyThreeOf160 <> [] /\
  magnitude (percentDone twentyThreeOf160) = Some (8092405580431359, 2 ^ 49) /\
  8092405580431359 < 10 ^ 21 * 2 ^ 49 /\
  exists str n,
    result (cannedBackend (JArray twentyThreeOf160)) (calculateProjectProgress (Some 1)) []
    = Returns (PString str) /\
    readFixed str = Some (false, n) /\
    roundedTo2 8092405580431359 (2 ^ 49) n.
Proof.
  split; [apply canned_lists|]. split; [discriminate|].
  split; [vm_compute; reflexivity|]. split; [reflexivity|].
  apply (progress_is_rounded_double _ (cannedBackend (JArray twentyThreeOf160)) (Some 1)
           [] [] twentyThreeOf160 8092405580431359 (2 ^ 49));
    [apply canned_lists|discriminate|vm_compute; reflexivity|reflexivity].
Defined.

Lemma forEachWeight_zero (tasks : list task) :
  Forall (fun t => weight t = 0%float) tasks ->
  forEachWeight tasks = (0%float, 0%float).
Proof.
  unfold forEachWeight.
  induction 1 as [|t tasks Ht _ IH]; [reflexivity|].
  cbn [fold_left addWeight]. rewrite Ht.
  destruct (isDone t); exact IH.
Qed.

(** C3 fails on the code: when every task has weight 0 the total weight is
    0, the quotient is 0/0, and [calculateProjectProgress] returns the
    string "NaN", not a number between 0 and 100. *)
Theorem zero_weights_progress_is_NaN
    (store : Type) (serve : request -> store -> outcome * store)
    (projectId : ident) (s s1 : store) (tasks : list task) :
  lists serve projectId s tasks s1 ->
  tasks <> [] ->
  Forall (fun t => weight t = 0%float) tasks ->
  result serve (calculateProjectProgress projectId) s = Returns (PString "NaN").
Proof.
  intros Hl Hne Hzero.
  rewrite (run_calculateProjectProgress serve projectId s tasks s1 Hl).
  destruct tasks as [|t tasks]; [congruence|].
  unfold completionProgress. rewrite (forEachWeight_zero _ Hzero). reflexivity.
Qed.

Lemma zero_weights_progress_is_NaN_witness :
  lists (cannedBackend (JArray weightless)) (Some 1) [] weightless [] /\
  weightless <> [] /\
  Forall (fun t => weight t = 0%float) weightless /\
  result (cannedBackend (JArray weightless)) (calculateProjectProgress (Some 1)) []
  = Returns (PString "NaN").
Proof.
  assert (Hzero : Forall (fun t => weight t = 0%float) weightless)
    by (repeat constructor).
  split; [apply canned_lists|]. split; [discriminate|]. split; [exact Hzero|].
  apply (zero_weights_progress_is_NaN _ (cannedBackend (JArray weightless))
           (Some 1) [] [] weightless); [apply canned_lists|discriminate|exact Hzero].
Defined.

(** C4. When the backend lists no task, [calculateProjectProgress] returns
    the number 0. *)
Theorem no_tasks_progress_is_zero
    (store : Type) (serve : request -> store -> outcome * store)
    (projectId : ident) (s s1 : store) :
  lists serve projectId s [] s1 ->
  result serve (calculateProjectProgress projectId) s = Returns (PNumber 0%float).
Proof.
  intros Hl. exact (run_calculateProjectProgress serve projectId s [] s1 Hl).
Qed.

Lemma no_tasks_progress_is_zero_witness :
  lists (cannedBackend (JArray [])) (Some 1) [] [] [] /\
  result (cannedBackend (JArray [])) (calculateProjectProgress (Some 1)) []
  = Returns (PNumber 0%float).
Proof.
  split; [apply canned_lists|].
  apply (no_tasks_progress_is_zero _ (cannedBackend (JArray [])) (Some 1) [] []).
  apply canned_lists.
Defined.

(** * The sync coordinator *)

Section Sync.

Context {store : Type}.
Variable serve : request -> store -> outcome * store.

Lemma requests_updateProjectStatus_listed projectId s l s1 :
  lists serve projectId s l s1 ->
  requests (events serve (updateProjectStatus projectId) s)
  = [tasksRequest projectId; statusRequest projectId l].
Proof.
  intros Hl.
  destruct (run_updateProjectStatus_listed serve projectId s l s1 Hl) as (t & E & Ht).
  unfold events. rewrite E. cbn [snd requests]. rewrite Ht. reflexivity.
Qed.

Lemma requests_updateProjectStatus projectId s :
  requests (events serve (updateProjectStatus projectId) s) = [tasksRequest projectId] \/
  exists l,
    requests (events serve (updateProjectStatus projectId) s)
    = [tasksRequest projectId; statusRequest projectId l].
Proof.
  destruct (run_updateProjectStatus serve projectId s) as (s2 & t & E & H).
  unfold events. rewrite E. exact H.
Qed.

Lemma requests_calculateAndUpdate_empty id s s1 :
  lists serve (Some id) s [] s1 ->
  requests (events serve (calculateAndUpdateProjectProgress (Some id)) s)
  = [tasksRequest (Some id)].
Proof.
  intros Hl. unfold events.
  rewrite (run_calculateAndUpdate_empty serve id s s1 Hl). reflexivity.
Qed.

End Sync.

(** C5. In every call of [calculateAndUpdateProjectProgress] on a non-empty
    task list, the request that updates [completion_progress] is issued and
    has settled before anything else happens; what follows is the listing
    inside [updateProjectStatus] and at most one status update, so a status
    update begins only after the progress update has settled, and no two
    requests of the call are ever in flight together. *)
Theorem progress_update_settles_before_status_update
    (store : Type) (serve : request -> store -> outcome * store)
    (id : Z) (s s1 : store) (tasks : list task) :
  lists serve (Some id) s tasks s1 ->
  tasks <> [] ->
  exists (listed updated : outcome) (t : list event),
    events serve (calculateAndUpdateProjectProgress (Some id)) s
    = Issued (get (ApiTasksOfProject (Some id)))
      :: Settled listed
      :: Issued (put (ApiProject (Some id))
                   (CompletionProgress (toFixed2 (completionProgress tasks))))
      :: Settled updated
      :: t /\
    (requests t = [get (ApiTasksOfProject (Some id))] \/
     exists l,
       requests t = [get (ApiTasksOfProject (Some id));
                     put (ApiProject (Some id)) (Status (projectStatus l))]) /\
    sequential (events serve (calculateAndUpdateProjectProgress (Some id)) s).
Proof.
  intros Hl Hne.
  destruct (run_calculateAndUpdate_listed serve id s tasks s1 Hl Hne) as (t & E & Ht).
  cbn zeta in E.
  eexists _, _, _. split; [|split].
  - unfold events at 1. rewrite E. reflexivity.
  - rewrite requests_app, Ht. cbn [app].
    apply requests_updateProjectStatus.
  - apply run_sequential.
Qed.

Lemma progress_update_settles_before_status_update_witness :
  lists (cannedBackend (JArray oneDone)) (Some 1) [] oneDone [] /\
  oneDone <> [] /\
  requests (events (cannedBackend (JArray oneDone))
              (calculateAndUpdateProjectProgress (Some 1)) [])
  = [get (ApiTasksOfProject (Some 1));
     put (ApiProject (Some 1)) (CompletionProgress "100.00");
     get (ApiTasksOfProject (Some 1));
     put (ApiProject (Some 1)) (Status "done")].
Proof.
  split; [apply canned_lists|]. split; [discriminate|].
  destruct (progress_update_settles_before_status_update _
              (cannedBackend (JArray oneDone)) 1 [] [] oneDone
              (canned_lists oneDone (Some 1) []))
    as (listed & updated & t & E & _ & _); [discriminate|].
  reflexivity.
Defined.

(** C6. When the backend lists no task, [calculateAndUpdateProjectProgress]
    issues the listing and nothing else, no progress update and no status
    update, and leaves the backend in the state the listing left it in. *)
Theorem no_tasks_no_update
    (store : Type) (serve : request -> store -> outcome * store)
    (id : Z) (s s1 : store) :
  lists serve (Some id) s [] s1 ->
  requests (events serve (calculateAndUpdateProjectProgress (Some id)) s)
  = [get (ApiTasksOfProject (Some id))] /\
  final serve (calculateAndUpdateProjectProgress (Some id)) s = s1.
Proof.
  intros Hl. unfold events, final.
  rewrite (run_calculateAndUpdate_empty serve id s s1 Hl). split; reflexivity.
Qed.

Lemma no_tasks_no_update_witness :
  lists (cannedBackend (JArray [])) (Some 1) [] [] [] /\
  requests (events (cannedBackend (JArray []))
              (calculateAndUpdateProjectProgress (Some 1)) [])
  = [get (ApiTasksOfProject (Some 1))] /\
  final (cannedBackend (JArray [])) (calculateAndUpdateProjectProgress (Some 1)) [] = [].
Proof.
  split; [apply canned_lists|].
  apply (no_tasks_no_update _ (cannedBackend (JArray [])) 1 [] []).
  apply canned_lists.
Defined.

(** C7. When the backend lists no task, [updateProjectStatus] finds every
    task "done", vacuously, and sends the status "done"; the handlers that
    create and edit a task call it themselves after
    [calculateAndUpdateProjectProgress], so a click on either pushes a
    project without tasks to "done". *)
Theorem no_tasks_status_becomes_done
    (store : Type) (serve : request -> store -> outcome * store) (id : Z) :
  (forall s, exists s1, lists serve (Some id) s [] s1) ->
  (forall s,
      requests (events serve (updateProjectStatus (Some id)) s)
      = [get (ApiTasksOfProject (Some id));
         put (ApiProject (Some id)) (Status "done")]) /\
  (forall taskName taskStatus taskWeight s resp s1,
      serve (post ApiTasks (NewTask (Some id) taskName taskStatus taskWeight)) s
      = (Fulfilled resp, s1) ->
      ok resp = true ->
      requests (events serve
                  (submitTaskBtn_click (Some id) taskName taskStatus taskWeight) s)
      = [post ApiTasks (NewTask (Some id) taskName taskStatus taskWeight);
         get (ApiTasksOfProject (Some id));
         get (ApiTasksOfProject (Some id));
         put (ApiProject (Some id)) (Status "done")]) /\
  (forall currentTaskId taskName taskStatus taskWeight s resp s1,
      serve (put (ApiTask currentTaskId) (TaskFields taskName taskStatus taskWeight)) s
      = (Fulfilled resp, s1) ->
      ok resp = true ->
      requests (events serve
                  (submitEditTaskBtn_click (Some id) currentTaskId
                     taskName taskStatus taskWeight) s)
      = [put (ApiTask currentTaskId) (TaskFields taskName taskStatus taskWeight);
         get (ApiTasksOfProject (Some id));
         get (ApiTasksOfProject (Some id));
         put (ApiProject (Some id)) (Status "done")]).
Proof.
  intros Hempty.
  assert (Hstatus : forall s,
      requests (events serve (updateProjectStatus (Some id)) s)
      = [get (ApiTasksOfProject (Some id));
         put (ApiProject (Some id)) (Status "done")]).
  { intros s. destruct (Hempty s) as (s1 & Hl).
    exact (requests_updateProjectStatus_listed serve (Some id) s [] s1 Hl). }
  assert (Hsync : forall s,
      requests (events serve (calculateAndUpdateProjectProgress (Some id)) s)
      = [get (ApiTasksOfProject (Some id))]).
  { intros s. destruct (Hempty s) as (s1 & Hl).
    exact (requests_calculateAndUpdate_empty serve id s s1 Hl). }
  split; [exact Hstatus|]. split.
  - intros taskName taskStatus taskWeight s resp s1 Hs Hok.
    rewrite (events_submitTaskBtn_saved serve _ _ _ _ s resp s1 Hs Hok).
    cbn [requests]. rewrite requests_app, Hsync, Hstatus. reflexivity.
  - intros currentTaskId taskName taskStatus taskWeight s resp s1 Hs Hok.
    rewrite (events_submitEditTaskBtn_saved serve _ _ _ _ _ s resp s1 Hs Hok).
    cbn [requests]. rewrite requests_app, Hsync, Hstatus. reflexivity.
Qed.

Lemma no_tasks_status_becomes_done_witness :
  (forall s, exists s1, lists (cannedBackend (JArray [])) (Some 1) s [] s1) /\
  requests (events (cannedBackend (JArray [])) (updateProjectStatus (Some 1)) [])
  = [get (ApiTasksOfProject (Some 1)); put (ApiProject (Some 1)) (Status "done")].
Proof.
  split; [intros s; exists s; apply canned_lists|].
  apply (no_tasks_status_becomes_done _ (cannedBackend (JArray [])) 1).
  intros s; exists s; apply canned_lists.
Defined.

(** C8 fails on the code: the handlers that create and edit a task issue
    their request whatever the form fields hold, empty or not; only the two
    project handlers look at their field first. *)
Theorem task_handlers_send_empty_fields
    (store : Type) (serve : request -> store -> outcome * store)
    (currentProjectId currentTaskId : ident) (s : store) :
  (exists t,
      events serve (submitTaskBtn_click currentProjectId "" "" "") s
      = Issued (post ApiTasks (NewTask currentProjectId "" "" "")) :: t) /\
  (exists t,
      events serve (submitEditTaskBtn_click currentProjectId currentTaskId "" "" "") s
      = Issued (put (ApiTask currentTaskId) (TaskFields "" "" "")) :: t).
Proof.
  split.
  - unfold events, submitTaskBtn_click. run_step.
    destruct (serve _ s) as [o s1].
    destruct (run serve _ s1) as [[c s2] t]. eexists. reflexivity.
  - unfold events, submitEditTaskBtn_click. run_step.
    destruct (serve _ s) as [o s1].
    destruct (run serve _ s1) as [[c s2] t]. eexists. reflexivity.
Qed.

(** The project handlers do validate: with an empty name they alert and
    issue nothing. *)
Lemma project_handlers_validate
    (store : Type) (serve : request -> store -> outcome * store)
    (currentProjectId : ident) (s : store) :
  events serve (submitProjectBtn_click "") s
  = [Did (Alert "Please fill in all fields.")] /\
  events serve (submitEditProjectBtn_click currentProjectId "") s
  = [Did (Alert "Please fill in all fields.")].
Proof. split; reflexivity. Qed.

(** With a name they issue their one request. *)
Lemma project_handlers_send
    (store : Type) (serve : request -> store -> outcome * store)
    (currentProjectId : ident) (projectName : string) (s : store) :
  projectName <> "" ->
  requests (events serve (submitProjectBtn_click projectName) s)
  = [post ApiProjects (NewProject projectName "draft" 0%float)] /\
  requests (events serve (submitEditProjectBtn_click currentProjectId projectName) s)
  = [put (ApiProject currentProjectId) (ProjectName projectName)].
Proof.
  intros Hne. destruct projectName as [|c rest]; [congruence|].
  split.
  - unfold events, submitProjectBtn_click. cbn [isEmpty]. run_step.
    destruct (serve _ s) as [[|resp] s1]; run_step; [reflexivity|].
    destruct (ok resp); reflexivity.
  - unfold events, submitEditProjectBtn_click. cbn [isEmpty]. run_step.
    destruct (serve _ s) as [[|resp] s1]; run_step; [reflexivity|].
    destruct (ok resp); reflexivity.
Qed.

(** C9, amended. After a task was created or edited, the handler awaits
    [calculateAndUpdateProjectProgress], which updates the progress and
    then the status, and then awaits [updateProjectStatus] once more: for
    a project with tasks the handler's own requests to the project are a
    progress update, a status update and a second status update, in this
    order, each after a fresh listing. What the reload sends that the
    handler starts is not among them. *)
Theorem task_handlers_update_status_twice
    (store : Type) (serve : request -> store -> outcome * store) (id : Z) :
  (forall s, exists l s1, l <> [] /\ lists serve (Some id) s l s1) ->
  (forall taskName taskStatus taskWeight s resp s1,
      serve (post ApiTasks (NewTask (Some id) taskName taskStatus taskWeight)) s
      = (Fulfilled resp, s1) ->
      ok resp = true ->
      exists l1 l2 l3,
        requests (events serve
                    (submitTaskBtn_click (Some id) taskName taskStatus taskWeight) s)
        = [post ApiTasks (NewTask (Some id) taskName taskStatus taskWeight);
           get (ApiTasksOfProject (Some id));
           put (ApiProject (Some id))
             (CompletionProgress (toFixed2 (completionProgress l1)));
           get (ApiTasksOfProject (Some id));
           put (ApiProject (Some id)) (Status (projectStatus l2));
           get (ApiTasksOfProject (Some id));
           put (ApiProject (Some id)) (Status (projectStatus l3))]) /\
  (forall currentTaskId taskName taskStatus taskWeight s resp s1,
      serve (put (ApiTask currentTaskId) (TaskFields taskName taskStatus taskWeight)) s
      = (Fulfilled resp, s1) ->
      ok resp = true ->
      exists l1 l2 l3,
        requests (events serve
                    (submitEditTaskBtn_click (Some id) currentTaskId
                       taskName taskStatus taskWeight) s)
        = [put (ApiTask currentTaskId) (TaskFields taskName taskStatus taskWeight);
           get (ApiTasksOfProject (Some id));
           put (ApiProject (Some id))
             (CompletionProgress (toFixed2 (completionProgress l1)));
           get (ApiTasksOfProject (Some id));
           put (ApiProject (Some id)) (Status (projectStatus l2));
           get (ApiTasksOfProject (Some id));
           put (ApiProject (Some id)) (Status (projectStatus l3))]).
Proof.
  intros Hlisted.
  assert (Hstatus : forall s, exists l,
      requests (events serve (updateProjectStatus (Some id)) s)
      = [get (ApiTasksOfProject (Some id));
         put (ApiProject (Some id)) (Status (projectStatus l))]).
  { intros s. destruct (Hlisted s) as (l & s1 & _ & Hl). exists l.
    exact (requests_updateProjectStatus_listed serve (Some id) s l s1 Hl). }
  assert (Hsync : forall s, exists l1 l2,
      requests (events serve (calculateAndUpdateProjectProgress (Some id)) s)
      = [get (ApiTasksOfProject (Some id));
         put (ApiProject (Some id))
           (CompletionProgress (toFixed2 (completionProgress l1)));
         get (ApiTasksOfProject (Some id));
         put (ApiProject (Some id)) (Status (projectStatus l2))]).
  { intros s. destruct (Hlisted s) as (l1 & s1 & Hne & Hl).
    destruct (run_calculateAndUpdate_listed serve id s l1 s1 Hl Hne) as (t & E & Ht).
    cbn zeta in E.
    destruct (Hstatus (snd (serve (progressRequest (Some id) l1) s1))) as (l2 & H2).
    exists l1, l2. unfold events at 1. rewrite E. cbn [snd requests].
    rewrite requests_app, Ht, H2. reflexivity. }
  split.
  - intros taskName taskStatus taskWeight s resp s1 Hs Hok.
    rewrite (events_submitTaskBtn_saved serve _ _ _ _ s resp s1 Hs Hok).
    destruct (Hsync s1) as (l1 & l2 & H12).
    destruct (Hstatus (final serve (calculateAndUpdateProjectProgress (Some id)) s1))
      as (l3 & H3).
    exists l1, l2, l3. cbn [requests]. rewrite requests_app, H12, H3. reflexivity.
  - intros currentTaskId taskName taskStatus taskWeight s resp s1 Hs Hok.
    rewrite (events_submitEditTaskBtn_saved serve _ _ _ _ _ s resp s1 Hs Hok).
    destruct (Hsync s1) as (l1 & l2 & H12).
    destruct (Hstatus (final serve (calculateAndUpdateProjectProgress (Some id)) s1))
      as (l3 & H3).
    exists l1, l2, l3. cbn [requests]. rewrite requests_app, H12, H3. reflexivity.
Qed.

Lemma task_handlers_update_status_twice_witness :
  (forall s, exists l s1,
      l <> [] /\ lists (cannedBackend (JArray oneDone)) (Some 1) s l s1) /\
  exists l1 l2 l3,
    requests (events (cannedBackend (JArray oneDone))
                (submitTaskBtn_click (Some 1) "Write tests" "done" "1") [])
    = [post ApiTasks (NewTask (Some 1) "Write tests" "done" "1");
       get (ApiTasksOfProject (Some 1));
       put (ApiProject (Some 1))
         (CompletionProgress (toFixed2 (completionProgress l1)));
       get (ApiTasksOfProject (Some 1));
       put (ApiProject (Some 1)) (Status (projectStatus l2));
       get (ApiTasksOfProject (Some 1));
       put (ApiProject (Some 1)) (Status (projectStatus l3))].
Proof.
  assert (H : forall s, exists l s1,
      l <> [] /\ lists (cannedBackend (JArray oneDone)) (Some 1) s l s1).
  { intros s. exists oneDone, s. split; [discriminate|apply canned_lists]. }
  split; [exact H|].
  apply (proj1 (task_handlers_update_status_twice _
                  (cannedBackend (JArray oneDone)) 1 H)
           "Write tests" "done" "1" [] (cannedResponse (JArray oneDone))
           [post ApiTasks (NewTask (Some 1) "Write tests" "done" "1")]);
    reflexivity.
Defined.

(** C9 fails on the page as stated: the handler also calls
    [loadProjects()], and the reload sends the project a progress update
    and a status update of its own. After a task of project 1 was saved,
    the project receives five PUT requests, three of them status updates,
    in whatever order the backend handles the requests of the two calls;
    when it takes them in turn, the handler's three are not even
    consecutive. *)
Lemma reload_updates_the_project_again :
  quiet (taskSaved [0; 1; 0; 1; 0; 1; 0; 1; 0; 1; 0; 1; 0; 1]%nat) = true /\
  putsTo 1 (seen (taskSaved [0; 1; 0; 1; 0; 1; 0; 1; 0; 1; 0; 1; 0; 1]%nat))
  = [CompletionProgress "100.00"; Status "done";
     CompletionProgress "100.00"; Status "done"; Status "done"] /\
  forallb (fun schedule =>
             let pg := taskSaved schedule in
             implb (quiet pg)
               ((List.length (putsTo 1 (seen pg)) =? 5)%nat &&
                (List.length (filter isStatus (putsTo 1 (seen pg))) =? 3)%nat))
          (schedules 14) = true.
Proof. split; [|split]; vm_compute; reflexivity. Qed.

(** * Reordering the tasks *)

Lemma listing_lists (projectId : ident) (l : list task) :
  lists listingBackend projectId l l l.
Proof. exists {| ok := true; json := Some (JArray l) |}. split; reflexivity. Qed.

(** C10 fails on the code as stated: the sums are sums of doubles, and
    0.1 + 0.7 + 2.4 is 3.1999999999999997 while 0.1 + 2.4 + 0.7 is 3.2, so
    the same three tasks give "21.88" in one order and "21.87" in another. *)
Lemma reordering_changes_progress :
  Permutation mixed mixedReordered /\
  result listingBackend (calculateProjectProgress (Some 1)) mixed
  = Returns (PString "21.88") /\
  result listingBackend (calculateProjectProgress (Some 1)) mixedReordered
  = Returns (PString "21.87").
Proof.
  split; [|split].
  - apply perm_skip, perm_swap.
  - vm_compute. reflexivity.
  - vm_compute. reflexivity.
Qed.

Lemma totalZ_nonneg tasks :
  Forall (fun t => wholeWeight (weight t)) tasks -> 0 <= totalZ tasks.
Proof.
  induction 1 as [|t tasks [Ht _] _ IH]; cbn [totalZ fold_right]; [lia|].
  fold (totalZ tasks). lia.
Qed.

Lemma totalZ_perm l l' : Permutation l l' -> totalZ l = totalZ l'.
Proof.
  induction 1 as [|t l l' _ IH|t u l|l l' l'' _ IH1 _ IH2];
    cbn [totalZ fold_right] in *; try fold (totalZ l) in *; try fold (totalZ l') in *; lia.
Qed.

Lemma doneZ_perm l l' : Permutation l l' -> doneZ l = doneZ l'.
Proof.
  induction 1 as [|t l l' _ IH|t u l|l l' l'' _ IH1 _ IH2];
    cbn [doneZ fold_right] in *; try fold (doneZ l) in *; try fold (doneZ l') in *.
  - reflexivity.
  - now rewrite IH.
  - destruct (isDone t), (isDone u); lia.
  - lia.
Qed.

Lemma doneZ_le_totalZ tasks :
  Forall (fun t => wholeWeight (weight t)) tasks ->
  0 <= doneZ tasks <= totalZ tasks.
Proof.
  induction 1 as [|t tasks [Ht _] _ IH];
    cbn [doneZ totalZ fold_right]; [lia|].
  fold (totalZ tasks). fold (doneZ tasks). destruct (isDone t); lia.
Qed.

(** On whole weights whose total stays below 2^53 the loop adds exactly. *)
Lemma forEachWeight_whole tasks :
  Forall (fun t => wholeWeight (weight t)) tasks ->
  forall a c,
    0 <= c <= a -> a + totalZ tasks < 2 ^ 53 ->
    fold_left addWeight tasks (ofZ a, ofZ c)
    = (ofZ (a + totalZ tasks), ofZ (c + doneZ tasks)).
Proof.
  induction 1 as [|t tasks [Ht Hw] Hall IH]; intros a c Hc Ha.
  - cbn [fold_left totalZ doneZ fold_right]. now rewrite !Z.add_0_r.
  - pose proof (totalZ_nonneg tasks Hall) as Hpos.
    cbn [totalZ doneZ fold_right] in *.
    fold (totalZ tasks) in *. fold (doneZ tasks).
    cbn [fold_left addWeight].
    remember (toZ (weight t)) as n eqn:En. rewrite Hw.
    rewrite add_ofZ by lia.
    destruct (isDone t).
    + rewrite add_ofZ by lia. rewrite IH by lia. f_equal; f_equal; lia.
    + rewrite IH by lia. f_equal; f_equal; lia.
Qed.

Lemma completionProgress_whole tasks :
  Forall (fun t => wholeWeight (weight t)) tasks ->
  totalZ tasks < 2 ^ 53 ->
  completionProgress tasks
  = (ofZ (doneZ tasks) / ofZ (totalZ tasks) * 100)%float.
Proof.
  intros Hall Htot. unfold completionProgress, forEachWeight.
  change (0%float, 0%float) with (ofZ 0, ofZ 0).
  rewrite (forEachWeight_whole tasks Hall 0 0) by lia.
  reflexivity.
Qed.

(** C10, amended. When every weight is a whole number and the weights add
    up to less than 2^53, [calculateProjectProgress] returns the same
    result for every order in which the backend lists the tasks. *)
Theorem whole_weights_progress_order_independent
    (store : Type) (serve : request -> store -> outcome * store)
    (projectId : ident) (s s1 s' s1' : store) (tasks tasks' : list task) :
  Permutation tasks tasks' ->
  Forall (fun t => wholeWeight (weight t)) tasks ->
  totalZ tasks < 2 ^ 53 ->
  lists serve projectId s tasks s1 ->
  lists serve projectId s' tasks' s1' ->
  result serve (calculateProjectProgress projectId) s
  = result serve (calculateProjectProgress projectId) s'.
Proof.
  intros Hperm Hall Htot Hl Hl'.
  rewrite (run_calculateProjectProgress serve projectId s tasks s1 Hl).
  rewrite (run_calculateProjectProgress serve projectId s' tasks' s1' Hl').
  assert (Hall' : Forall (fun t => wholeWeight (weight t)) tasks')
    by (eapply Permutation_Forall; eassumption).
  assert (Htot' : totalZ tasks' < 2 ^ 53)
    by (rewrite <- (totalZ_perm tasks tasks' Hperm); assumption).
  assert (E : completionProgress tasks = completionProgress tasks').
  { rewrite !completionProgress_whole by assumption.
    now rewrite (totalZ_perm tasks tasks' Hperm), (doneZ_perm tasks tasks' Hperm). }
  destruct tasks as [|t l], tasks' as [|t' l'].
  - reflexivity.
  - now apply Permutation_nil_cons in Hperm.
  - now apply Permutation_sym, Permutation_nil_cons in Hperm.
  - now rewrite E.
Qed.

Lemma whole_weights_progress_order_independent_witness :
  Permutation threeWhole threeWholeReordered /\
  Forall (fun t => wholeWeight (weight t)) threeWhole /\
  totalZ threeWhole < 2 ^ 53 /\
  lists listingBackend (Some 1) threeWhole threeWhole threeWhole /\
  lists listingBackend (Some 1) threeWholeReordered threeWholeReordered
    threeWholeReordered /\
  result listingBackend (calculateProjectProgress (Some 1)) threeWhole
  = result listingBackend (calculateProjectProgress (Some 1)) threeWholeReordered.
Proof.
  assert (Hperm : Permutation threeWhole threeWholeReordered).
  { unfold threeWhole, threeWholeReordered.
    eapply perm_trans; [apply perm_skip, perm_swap|apply perm_swap]. }
  assert (Hall : Forall (fun t => wholeWeight (weight t)) threeWhole).
  { repeat constructor; vm_compute; congruence. }
  assert (Htot : totalZ threeWhole < 2 ^ 53) by (vm_compute; reflexivity).
  repeat (split; [first [assumption|apply listing_lists]|]).
  exact (whole_weights_progress_order_independent _ listingBackend (Some 1)
           threeWhole threeWhole threeWholeReordered threeWholeReordered
           threeWhole threeWholeReordered Hperm Hall Htot
           (listing_lists (Some 1) threeWhole)
           (listing_lists (Some 1) threeWholeReordered)).
Defined.

(** * Failures and edge cases *)

(** X1. [calculateProjectProgress] always returns, after exactly one request,
    the listing: the number 0 unless the listing is a non-empty array,
    whether the request was rejected, the body was not JSON, [null], not
    an array, or an empty array; [response.ok] is never looked at. *)
Theorem calculateProjectProgress_outcomes
    (store : Type) (serve : request -> store -> outcome * store)
    (projectId : ident) (s : store) :
  requests (events serve (calculateProjectProgress projectId) s)
  = [get (ApiTasksOfProject projectId)] /\
  final serve (calculateProjectProgress projectId) s
  = snd (serve (get (ApiTasksOfProject projectId)) s) /\
  result serve (calculateProjectProgress projectId) s
  = Returns
      match listing (fst (serve (get (ApiTasksOfProject projectId)) s)) with
      | Some (t :: l) => PString (toFixed2 (completionProgress (t :: l)))
      | _ => PNumber 0%float
      end.
Proof.
  unfold events, final, result, calculateProjectProgress, listing. run_step.
  destruct (serve _ s) as [[|resp] s1]; run_step; [repeat split|].
  destruct (json resp) as [[| [|t l] |]|]; run_step; repeat split.
Qed.

(** X2. [updateProjectStatus] always returns. It sends a status only when the
    listing is an array; when the listing was rejected, was not JSON, was
    [null] or was not an array, the listing is its only request and the
    project keeps the status it had. *)
Theorem updateProjectStatus_outcomes
    (store : Type) (serve : request -> store -> outcome * store)
    (projectId : ident) (s : store) :
  result serve (updateProjectStatus projectId) s = Returns tt /\
  requests (events serve (updateProjectStatus projectId) s)
  = match listing (fst (serve (get (ApiTasksOfProject projectId)) s)) with
    | Some l => [get (ApiTasksOfProject projectId);
                 put (ApiProject projectId) (Status (projectStatus l))]
    | None => [get (ApiTasksOfProject projectId)]
    end.
Proof.
  unfold events, result, updateProjectStatus, listing. run_step.
  destruct (serve _ s) as [[|resp] s1]; run_step; [split; reflexivity|].
  destruct (json resp) as [[| l |]|]; run_step; try (split; reflexivity).
  destruct (serve _ s1) as [[|resp2] s2]; run_step; [split; reflexivity|].
  destruct (ok resp2); split; reflexivity.
Qed.

(** X3. [updateProjectProgress] always returns after its one request, and
    writes to the console exactly when the update was rejected or answered
    with a status that is not ok; the failure goes no further. *)
Theorem updateProjectProgress_outcomes
    (store : Type) (serve : request -> store -> outcome * store)
    (projectId : ident) (progress : string) (s : store) :
  let update := put (ApiProject projectId) (CompletionProgress progress) in
  result serve (updateProjectProgress projectId progress) s = Returns tt /\
  final serve (updateProjectProgress projectId progress) s = snd (serve update s) /\
  events serve (updateProjectProgress projectId progress) s
  = Issued update
    :: Settled (fst (serve update s))
    :: match fst (serve update s) with
       | Rejected => [Did (ConsoleError "Error updating project progress for")]
       | Fulfilled response =>
           if ok response then []
           else [Did (ConsoleError "Error updating progress for project")]
       end.
Proof.
  cbv zeta. unfold events, final, result, updateProjectProgress. run_step.
  destruct (serve _ s) as [[|resp] s1]; run_step; [repeat split|].
  destruct (ok resp); repeat split.
Qed.

(** X4. [calculateAndUpdateProjectProgress] always returns. With a [null] id
    it asks the backend nothing. Otherwise it updates the project only
    when the listing is a non-empty array, and then the status update
    follows the progress update whatever the backend answered to it; in
    every other case (rejected, not JSON, [null], not an array, empty) the
    listing is its only request. *)
Theorem calculateAndUpdate_outcomes
    (store : Type) (serve : request -> store -> outcome * store)
    (projectId : ident) (s : store) :
  (exists v, result serve (calculateAndUpdateProjectProgress projectId) s = Returns v) /\
  requests (events serve (calculateAndUpdateProjectProgress projectId) s)
  = match projectId with
    | None => []
    | Some _ =>
        let '(listed, s1) := serve (get (ApiTasksOfProject projectId)) s in
        match listing listed with
        | Some (t :: l) =>
            let update :=
              put (ApiProject projectId)
                (CompletionProgress (toFixed2 (completionProgress (t :: l)))) in
            get (ApiTasksOfProject projectId)
            :: update
            :: requests (events serve (updateProjectStatus projectId)
                           (snd (serve update s1)))
        | _ => [get (ApiTasksOfProject projectId)]
        end
    end.
Proof.
  split; [apply calculateAndUpdate_returns|].
  destruct projectId as [id|]; [|reflexivity].
  destruct (serve (get (ApiTasksOfProject (Some id))) s) as [listed s1] eqn:Hs.
  destruct listed as [|resp]; cbn [listing].
  - unfold events, calculateAndUpdateProjectProgress. run_step. rewrite Hs. reflexivity.
  - destruct (json resp) as [[| [|t l] |]|] eqn:Hj.
    + unfold events, calculateAndUpdateProjectProgress. run_step.
      rewrite Hs. run_step. rewrite Hj. reflexivity.
    + unfold events, calculateAndUpdateProjectProgress. run_step.
      rewrite Hs. run_step. rewrite Hj. reflexivity.
    + assert (Hl : lists serve (Some id) s (t :: l) s1) by (exists resp; split; assumption).
      destruct (run_calculateAndUpdate_listed serve id s (t :: l) s1 Hl) as (t' & E & Ht);
        [discriminate|].
      cbn zeta in E. unfold events at 1. rewrite E. cbn [snd requests].
      rewrite requests_app, Ht. reflexivity.
    + unfold events, calculateAndUpdateProjectProgress. run_step.
      rewrite Hs. run_step. rewrite Hj. reflexivity.
    + unfold events, calculateAndUpdateProjectProgress. run_step.
      rewrite Hs. run_step. rewrite Hj. reflexivity.
Qed.

(** X5. For every id that is not [null], [calculateAndLogProjectProgress], the
    function the reload awaits for each project, does exactly what
    [calculateAndUpdateProjectProgress] does: the same events in the same
    order, and the same backend state at the end. With [null] it differs:
    it has no guard and still asks for the tasks of project [null]. *)
Theorem calculateAndLog_is_calculateAndUpdate
    (store : Type) (serve : request -> store -> outcome * store) (s : store) :
  (forall id : Z,
      events serve (calculateAndLogProjectProgress (Some id)) s
      = events serve (calculateAndUpdateProjectProgress (Some id)) s /\
      final serve (calculateAndLogProjectProgress (Some id)) s
      = final serve (calculateAndUpdateProjectProgress (Some id)) s) /\
  (exists t,
      events serve (calculateAndLogProjectProgress None) s
      = Issued (get (ApiTasksOfProject None)) :: t) /\
  requests (events serve (calculateAndUpdateProjectProgress None) s) = [].
Proof.
  split; [|split].
  - intros id.
    unfold events, final, calculateAndLogProjectProgress,
      calculateAndUpdateProjectProgress. run_step.
    destruct (serve _ s) as [[|resp] s1]; run_step; [split; reflexivity|].
    destruct (json resp) as [[| [|t l] |]|]; run_step; try (split; reflexivity).
    rewrite !run_tryCatch, !run_bind.
    pose proof (updateProjectProgress_returns serve (Some id)
                  (toFixed2 (completionProgress (t :: l))) s1) as Hp.
    unfold result in Hp.
    destruct (run serve (updateProjectProgress _ _) s1) as [[c s2] t2].
    cbn [fst] in Hp. subst c. rewrite run_bind.
    pose proof (updateProjectStatus_returns serve (Some id) s2) as Hq.
    unfold result in Hq.
    destruct (run serve (updateProjectStatus _) s2) as [[c s3] t3].
    cbn [fst] in Hq. subst c. cbn [run fst snd]. rewrite app_nil_r.
    split; reflexivity.
  - unfold events, calculateAndLogProjectProgress. run_step.
    destruct (serve _ s) as [o s1].
    destruct (run serve _ s1) as [[c s2] t]. eexists. reflexivity.
  - reflexivity.
Qed.

(** * Deleting *)

(** X6. [deleteTask] asks the backend nothing unless the user confirms. Once
    confirmed it issues the DELETE and nothing else: on ok it starts the
    reload, on any other answer or a rejection it alerts; it never throws
    and never updates the project itself. *)
Theorem deleteTask_outcomes
    (store : Type) (serve : request -> store -> outcome * store)
    (task_id : ident) (s : store) :
  events serve (deleteTask false task_id) s = [] /\
  result serve (deleteTask true task_id) s = Returns tt /\
  final serve (deleteTask true task_id) s = snd (serve (delete (ApiTask task_id)) s) /\
  events serve (deleteTask true task_id) s
  = Issued (delete (ApiTask task_id))
    :: Settled (fst (serve (delete (ApiTask task_id)) s))
    :: match fst (serve (delete (ApiTask task_id)) s) with
       | Rejected =>
           [Did (ConsoleError "Error deleting task:");
            Did (Alert "Error deleting task.")]
       | Fulfilled response =>
           if ok response then [Did LoadProjects]
           else [Did (Alert "Error deleting task.")]
       end.
Proof.
  split; [reflexivity|].
  unfold events, final, result, deleteTask. run_step.
  destruct (serve _ s) as [[|resp] s1]; run_step; [repeat split|].
  destruct (ok resp); repeat split.
Qed.

(** X7. [deleteProject] likewise: nothing without the confirmation, then the
    one DELETE, the reload on ok and an alert otherwise. *)
Theorem deleteProject_outcomes
    (store : Type) (serve : request -> store -> outcome * store)
    (project_id : ident) (s : store) :
  events serve (deleteProject false project_id) s = [] /\
  result serve (deleteProject true project_id) s = Returns tt /\
  final serve (deleteProject true project_id) s
  = snd (serve (delete (ApiProject project_id)) s) /\
  events serve (deleteProject true project_id) s
  = Issued (delete (ApiProject project_id))
    :: Settled (fst (serve (delete (ApiProject project_id)) s))
    :: match fst (serve (delete (ApiProject project_id)) s) with
       | Rejected =>
           [Did (ConsoleError "Error deleting project:");
            Did (Alert "Error deleting project.")]
       | Fulfilled response =>
           if ok response then [Did LoadProjects]
           else [Did (Alert "Error deleting project.")]
       end.
Proof.
  split; [reflexivity|].
  unfold events, final, result, deleteProject. run_step.
  destruct (serve _ s) as [[|resp] s1]; run_step; [repeat split|].
  destruct (ok resp); repeat split.
Qed.

(** * The task table *)

(** X8. [loadTasks] always returns, after exactly one request. It returns the
    rows of the tasks only for an ok response whose body is a non-empty
    array; for a response that is not ok, a body that is not JSON, [null],
    not an array or empty, and for a rejected request, it returns the one
    row that says there are no tasks. *)
Theorem loadTasks_outcomes
    (store : Type) (serve : request -> store -> outcome * store)
    (taskRow : task -> string) (project_id : ident) (s : store) :
  requests (events serve (loadTasks taskRow project_id) s)
  = [get (ApiTasksOfProject project_id)] /\
  result serve (loadTasks taskRow project_id) s
  = Returns
      (if succeeded (fst (serve (get (ApiTasksOfProject project_id)) s))
       then match listing (fst (serve (get (ApiTasksOfProject project_id)) s)) with
            | Some (t :: l) => String.concat "" (map taskRow (t :: l))
            | _ => noTaskRow
            end
       else noTaskRow).
Proof.
  unfold events, result, loadTasks, listing, succeeded. run_step.
  destruct (serve _ s) as [[|resp] s1]; run_step; [split; reflexivity|].
  destruct (ok resp); cbn [negb]; run_step; [|split; reflexivity].
  destruct (json resp) as [[| [|t l] |]|]; run_step; split; reflexivity.
Qed.

(** * Saving a task *)

(** X9. A task handler always issues the save, whatever the fields hold. When
    the backend does not accept it (a status that is not ok, or a rejected
    request) the handler alerts and stops: no reload, the modal stays
    open, and the project is neither listed nor updated. When it does, the
    handler starts the reload, hides the modal, and awaits
    [calculateAndUpdateProjectProgress] and then [updateProjectStatus]. *)
Theorem submitTaskBtn_outcomes
    (store : Type) (serve : request -> store -> outcome * store)
    (currentProjectId : ident) (taskName taskStatus taskWeight : string) (s : store) :
  let create :=
    post ApiTasks (NewTask currentProjectId taskName taskStatus taskWeight) in
  events serve (submitTaskBtn_click currentProjectId taskName taskStatus taskWeight) s
  = Issued create
    :: Settled (fst (serve create s))
    :: match fst (serve create s) with
       | Rejected =>
           [Did (ConsoleError "Error adding task:"); Did (Alert "Error adding task.")]
       | Fulfilled response =>
           if ok response then
             Did LoadProjects
             :: Did (ModalHide "addTaskModal")
             :: events serve (calculateAndUpdateProjectProgress currentProjectId)
                  (snd (serve create s))
                ++ events serve (updateProjectStatus currentProjectId)
                     (final serve (calculateAndUpdateProjectProgress currentProjectId)
                        (snd (serve create s)))
           else [Did (Alert "Error adding task.")]
       end.
Proof.
  cbv zeta.
  destruct (serve (post ApiTasks (NewTask currentProjectId taskName taskStatus taskWeight)) s)
    as [[|resp] s1] eqn:Hs; cbn [fst snd].
  - unfold events, submitTaskBtn_click. run_step. rewrite Hs. reflexivity.
  - destruct (ok resp) eqn:Hok.
    + exact (events_submitTaskBtn_saved serve _ _ _ _ s resp s1 Hs Hok).
    + unfold events, submitTaskBtn_click. run_step. rewrite Hs. run_step.
      rewrite Hok. reflexivity.
Qed.

(** X10. The handler that edits a task behaves in the same way around its
    PUT: alert and stop when the backend does not accept the edit, reload,
    hide the modal and the two awaited updates when it does. *)
Theorem submitEditTaskBtn_outcomes
    (store : Type) (serve : request -> store -> outcome * store)
    (currentProjectId currentTaskId : ident)
    (taskName taskStatus taskWeight : string) (s : store) :
  let edit :=
    put (ApiTask currentTaskId) (TaskFields taskName taskStatus taskWeight) in
  events serve
    (submitEditTaskBtn_click currentProjectId currentTaskId
       taskName taskStatus taskWeight) s
  = Issued edit
    :: Settled (fst (serve edit s))
    :: match fst (serve edit s) with
       | Rejected =>
           [Did (ConsoleError "Error editing task:"); Did (Alert "Error editing task.")]
       | Fulfilled response =>
           if ok response then
             Did LoadProjects
             :: Did (ModalHide "editTaskModal")
             :: events serve (calculateAndUpdateProjectProgress currentProjectId)
                  (snd (serve edit s))
                ++ events serve (updateProjectStatus currentProjectId)
                     (final serve (calculateAndUpdateProjectProgress currentProjectId)
                        (snd (serve edit s)))
           else [Did (Alert "Error editing task.")]
       end.
Proof.
  cbv zeta.
  destruct (serve (put (ApiTask currentTaskId) (TaskFields taskName taskStatus taskWeight)) s)
    as [[|resp] s1] eqn:Hs; cbn [fst snd].
  - unfold events, submitEditTaskBtn_click. run_step. rewrite Hs. reflexivity.
  - destruct (ok resp) eqn:Hok.
    + exact (events_submitEditTaskBtn_saved serve _ _ _ _ _ s resp s1 Hs Hok).
    + unfold events, submitEditTaskBtn_click. run_step. rewrite Hs. run_step.
      rewrite Hok. reflexivity.
Qed.

(** X11. The handler that edits a task takes the project from
    [currentProjectId], which is [null] until a project's own modal has
    set it. With [null], after the task was saved, the handler skips the
    progress update altogether and [updateProjectStatus] asks for the
    tasks of project [null]: the only requests are the save, that listing,
    and a status update addressed to project [null] if the listing is an
    array. *)
Theorem edit_task_without_project
    (store : Type) (serve : request -> store -> outcome * store)
    (currentTaskId : ident) (taskName taskStatus taskWeight : string)
    (s s1 : store) (response : response) :
  serve (put (ApiTask currentTaskId) (TaskFields taskName taskStatus taskWeight)) s
  = (Fulfilled response, s1) ->
  ok response = true ->
  requests (events serve
              (submitEditTaskBtn_click None currentTaskId
                 taskName taskStatus taskWeight) s)
  = put (ApiTask currentTaskId) (TaskFields taskName taskStatus taskWeight)
    :: match listing (fst (serve (get (ApiTasksOfProject None)) s1)) with
       | Some l => [get (ApiTasksOfProject None);
                    put (ApiProject None) (Status (projectStatus l))]
       | None => [get (ApiTasksOfProject None)]
       end.
Proof.
  intros Hs Hok.
  rewrite (events_submitEditTaskBtn_saved serve None currentTaskId _ _ _ s response s1 Hs Hok).
  cbn [requests]. rewrite requests_app. f_equal.
  change (requests (events serve (calculateAndUpdateProjectProgress None) s1)) with (@nil request).
  change (final serve (calculateAndUpdateProjectProgress None) s1) with s1.
  cbn [app].
  unfold events, updateProjectStatus, listing. run_step.
  destruct (serve _ s1) as [[|resp] s2]; run_step; [reflexivity|].
  destruct (json resp) as [[| l |]|]; run_step; try reflexivity.
  destruct (serve _ s2) as [[|resp2] s3]; run_step; [reflexivity|].
  destruct (ok resp2); reflexivity.
Qed.

Lemma edit_task_without_project_witness :
  cannedBackend (JArray oneDone)
    (put (ApiTask (Some 7)) (TaskFields "Write tests" "done" "1")) []
  = (Fulfilled (cannedResponse (JArray oneDone)),
     [put (ApiTask (Some 7)) (TaskFields "Write tests" "done" "1")]) /\
  ok (cannedResponse (JArray oneDone)) = true /\
  requests (events (cannedBackend (JArray oneDone))
              (submitEditTaskBtn_click None (Some 7) "Write tests" "done" "1") [])
  = [put (ApiTask (Some 7)) (TaskFields "Write tests" "done" "1");
     get (ApiTasksOfProject None);
     put (ApiProject None) (Status "done")].
Proof.
  split; [reflexivity|]. split; [reflexivity|].
  exact (edit_task_without_project _ (cannedBackend (JArray oneDone)) (Some 7)
           "Write tests" "done" "1" []
           [put (ApiTask (Some 7)) (TaskFields "Write tests" "done" "1")]
           (cannedResponse (JArray oneDone)) eq_refl eq_refl).
Defined.

(** * The project handlers *)

(** X12. A project handler looks at the name first: with an empty name it
    alerts and asks the backend nothing. With a name it issues its one
    request and then either starts the reload and hides its modal (ok), or
    alerts (any other status, a rejection); it never recomputes progress
    or status. *)
Theorem project_handlers_outcomes
    (store : Type) (serve : request -> store -> outcome * store)
    (currentProjectId : ident) (projectName : string) (s : store) :
  let create := post ApiProjects (NewProject projectName "draft" 0%float) in
  let edit := put (ApiProject currentProjectId) (ProjectName projectName) in
  events serve (submitProjectBtn_click projectName) s
  = (if isEmpty projectName then [Did (Alert "Please fill in all fields.")]
     else
       Issued create
       :: Settled (fst (serve create s))
       :: match fst (serve create s) with
          | Rejected =>
              [Did (ConsoleError "Error submitting project:");
               Did (Alert "Error submitting project.")]
          | Fulfilled response =>
              if ok response
              then [Did LoadProjects; Did (ModalHide "createProjectModal")]
              else [Did (Alert "Error creating project.")]
          end) /\
  events serve (submitEditProjectBtn_click currentProjectId projectName) s
  = (if isEmpty projectName then [Did (Alert "Please fill in all fields.")]
     else
       Issued edit
       :: Settled (fst (serve edit s))
       :: match fst (serve edit s) with
          | Rejected =>
              [Did (ConsoleError "Error submitting project changes:");
               Did (Alert "Error submitting project changes.")]
          | Fulfilled response =>
              if ok response
              then [Did LoadProjects; Did (ModalHide "editProjectModal")]
              else [Did (Alert "Error editing project.")]
          end).
Proof.
  cbv zeta. destruct projectName as [|c rest]; [split; reflexivity|].
  split.
  - unfold events, submitProjectBtn_click. cbn [isEmpty]. run_step.
    destruct (serve _ s) as [[|resp] s1]; run_step; [reflexivity|].
    destruct (ok resp); reflexivity.
  - unfold events, submitEditProjectBtn_click. cbn [isEmpty]. run_step.
    destruct (serve _ s) as [[|resp] s1]; run_step; [reflexivity|].
    destruct (ok resp); reflexivity.
Qed.

(** * Order of the tasks and the status *)

Lemma forallb_perm {A : Type} (f : A -> bool) (l l' : list A) :
  Permutation l l' -> forallb f l = forallb f l'.
Proof.
  induction 1 as [|x l l' _ IH|x y l|l l' l'' _ IH1 _ IH2]; cbn [forallb].
  - reflexivity.
  - now rewrite IH.
  - destruct (f x), (f y); reflexivity.
  - now rewrite IH1.
Qed.

Lemma existsb_perm {A : Type} (f : A -> bool) (l l' : list A) :
  Permutation l l' -> existsb f l = existsb f l'.
Proof.
  induction 1 as [|x l l' _ IH|x y l|l l' l'' _ IH1 _ IH2]; cbn [existsb].
  - reflexivity.
  - now rewrite IH.
  - destruct (f x), (f y); reflexivity.
  - now rewrite IH1.
Qed.

(** X13. Unlike the percentage, the status does not depend on the order in
    which the backend lists the tasks: [updateProjectStatus] sends the
    same status for every reordering of the list. *)
Theorem status_order_independent
    (store : Type) (serve : request -> store -> outcome * store)
    (projectId : ident) (s s1 s' s1' : store) (tasks tasks' : list task) :
  Permutation tasks tasks' ->
  lists serve projectId s tasks s1 ->
  lists serve projectId s' tasks' s1' ->
  requests (events serve (updateProjectStatus projectId) s)
  = requests (events serve (updateProjectStatus projectId) s').
Proof.
  intros Hperm Hl Hl'.
  rewrite (requests_updateProjectStatus_listed serve projectId s tasks s1 Hl).
  rewrite (requests_updateProjectStatus_listed serve projectId s' tasks' s1' Hl').
  unfold statusRequest, projectStatus.
  now rewrite (forallb_perm isDone tasks tasks' Hperm),
              (existsb_perm isInProgress tasks tasks' Hperm).
Qed.

Lemma status_order_independent_witness :
  Permutation mixed mixedReordered /\
  lists listingBackend (Some 1) mixed mixed mixed /\
  lists listingBackend (Some 1) mixedReordered mixedReordered mixedReordered /\
  requests (events listingBackend (updateProjectStatus (Some 1)) mixed)
  = requests (events listingBackend (updateProjectStatus (Some 1)) mixedReordered).
Proof.
  assert (Hperm : Permutation mixed mixedReordered) by apply perm_skip, perm_swap.
  split; [exact Hperm|]. split; [apply listing_lists|]. split; [apply listing_lists|].
  exact (status_order_independent _ listingBackend (Some 1) mixed mixed
           mixedReordered mixedReordered mixed mixedReordered Hperm
           (listing_lists (Some 1) mixed) (listing_lists (Some 1) mixedReordered)).
Defined.

(** * Nothing done, everything done *)

Lemma filter_all_done (tasks : list task) :
  forallb isDone tasks = true -> filter isDone tasks = tasks.
Proof.
  induction tasks as [|t tasks IH]; [reflexivity|].
  cbn [forallb filter]. intros H. apply andb_prop in H as [Ht Hrest].
  rewrite Ht. f_equal. now apply IH.
Qed.

(** A finite number other than 0 divided by itself is 1. *)
Lemma div_self (x : number) :
  finiteNonzero x = true -> (x / x)%float = 1%float.
Proof.
  unfold finiteNonzero. intros H. apply Prim2SF_inj.
  rewrite FloatAxioms.div_spec.
  destruct (Prim2SF x) as [| | |sx m e]; try discriminate.
  unfold SF64div, SFdiv, SFdiv_core_binary. cbn [Zdigits2].
  rewrite !Z.sub_diag.
  change (Z.min (fexp prec emax 0) 0) with (-53).
  change (0 - -53) with 53.
  cbv iota beta.
  rewrite Z.shiftl_mul_pow2 by lia.
  pose proof (Z.div_mul (2 ^ 53) (Zpos m) ltac:(lia)) as Hq.
  pose proof (Z.mod_mul (2 ^ 53) (Zpos m) ltac:(lia)) as Hr.
  rewrite (Z.mul_comm (2 ^ 53)) in Hq, Hr.
  unfold Z.div, Z.modulo in Hq, Hr.
  destruct (Z.div_eucl (Zpos m * 2 ^ 53) (Zpos m)) as [q r].
  cbn [fst snd] in Hq, Hr. subst q r.
  replace (new_location (Zpos m) 0) with loc_Exact
    by (unfold new_location; destruct (Z.even (Zpos m)); reflexivity).
  destruct sx; reflexivity.
Qed.

(** X14. A project all of whose tasks are done shows 100.00, whatever the
    weights are, provided they add up to a finite number other than 0. *)
Theorem all_done_progress_is_100
    (store : Type) (serve : request -> store -> outcome * store)
    (projectId : ident) (s s1 : store) (tasks : list task) :
  lists serve projectId s tasks s1 ->
  tasks <> [] ->
  Forall (fun t => status t = "done") tasks ->
  finiteNonzero (sumWeights tasks) = true ->
  result serve (calculateProjectProgress projectId) s = Returns (PString "100.00").
Proof.
  intros Hl Hne Hdone Hfin.
  rewrite (run_calculateProjectProgress serve projectId s tasks s1 Hl).
  destruct tasks as [|t tasks]; [congruence|].
  unfold completionProgress. rewrite forEachWeight_sums.
  rewrite filter_all_done by (apply forallb_isDone; assumption).
  rewrite (div_self _ Hfin). reflexivity.
Qed.

Lemma all_done_progress_is_100_witness :
  lists (cannedBackend (JArray oneDone)) (Some 1) [] oneDone [] /\
  oneDone <> [] /\
  Forall (fun t => status t = "done") oneDone /\
  finiteNonzero (sumWeights oneDone) = true /\
  result (cannedBackend (JArray oneDone)) (calculateProjectProgress (Some 1)) []
  = Returns (PString "100.00").
Proof.
  assert (Hdone : Forall (fun t => status t = "done") oneDone) by (repeat constructor).
  split; [apply canned_lists|]. split; [discriminate|]. split; [exact Hdone|].
  split; [reflexivity|].
  apply (all_done_progress_is_100 _ (cannedBackend (JArray oneDone))
           (Some 1) [] [] oneDone);
    [apply canned_lists|discriminate|exact Hdone|reflexivity].
Defined.

Lemma none_done_filter (tasks : list task) :
  Forall (fun t => status t <> "done") tasks -> filter isDone tasks = [].
Proof.
  induction 1 as [|t tasks Ht _ IH]; [reflexivity|].
  cbn [filter]. unfold isDone at 1.
  destruct (String.eqb_spec (status t) "done"); [contradiction|exact IH].
Qed.

(** X15. A project none of whose tasks is done shows 0.00, provided the
    weights do not add up to 0 or to NaN. *)
Theorem none_done_progress_is_0
    (store : Type) (serve : request -> store -> outcome * store)
    (projectId : ident) (s s1 : store) (tasks : list task) :
  lists serve projectId s tasks s1 ->
  tasks <> [] ->
  Forall (fun t => status t <> "done") tasks ->
  nonzero (sumWeights tasks) = true ->
  result serve (calculateProjectProgress projectId) s = Returns (PString "0.00").
Proof.
  intros Hl Hne Hnone Hnz.
  rewrite (run_calculateProjectProgress serve projectId s tasks s1 Hl).
  destruct tasks as [|t tasks]; [congruence|].
  unfold completionProgress. rewrite forEachWeight_sums.
  rewrite (none_done_filter _ Hnone).
  change (sumWeights []) with 0%float.
  do 2 f_equal. unfold toFixed2, nonzero in *.
  rewrite FloatAxioms.mul_spec, FloatAxioms.div_spec.
  change (Prim2SF 0) with (S754_zero false).
  destruct (Prim2SF (sumWeights (t :: tasks))) as [| sy | |sy m e];
    try discriminate; destruct sy; reflexivity.
Qed.

Lemma none_done_progress_is_0_witness :
  lists (cannedBackend (JArray oneStarted)) (Some 1) [] oneStarted [] /\
  oneStarted <> [] /\
  Forall (fun t => status t <> "done") oneStarted /\
  nonzero (sumWeights oneStarted) = true /\
  result (cannedBackend (JArray oneStarted)) (calculateProjectProgress (Some 1)) []
  = Returns (PString "0.00").
Proof.
  assert (Hnone : Forall (fun t => status t <> "done") oneStarted)
    by (repeat constructor; discriminate).
  split; [apply canned_lists|]. split; [discriminate|]. split; [exact Hnone|].
  split; [reflexivity|].
  apply (none_done_progress_is_0 _ (cannedBackend (JArray oneStarted))
           (Some 1) [] [] oneStarted);
    [apply canned_lists|discriminate|exact Hnone|reflexivity].
Defined.

(** * The percentage stays between 0 and 100 *)

Lemma digits_upper p : Zpos p < 2 ^ Zpos (digits2_pos p).
Proof.
  induction p as [p IH|p IH|]; cbn [digits2_pos].
  - rewrite Pos2Z.inj_succ, Z.pow_succ_r by lia. lia.
  - rewrite Pos2Z.inj_succ, Z.pow_succ_r by lia. lia.
  - reflexivity.
Qed.

Lemma shr_nat mrs e n :
  shr mrs e n = (Nat.iter (Z.to_nat n) shr_1 mrs, e + Z.max n 0).
Proof.
  destruct n as [|p|p]; cbn [shr Z.to_nat Nat.iter nat_rect].
  - now rewrite Z.add_0_r.
  - rewrite iter_pos_nat. reflexivity.
  - now rewrite Z.add_0_r.
Qed.

Lemma shr_1_m x : 0 <= shr_m x -> shr_m (shr_1 x) = shr_m x / 2.
Proof.
  destruct x as [m r s]. cbn [shr_m]. intros Hm.
  destruct m as [|[p|p|]|p]; cbn [shr_1 shr_m]; try lia; try reflexivity;
    rewrite <- Z.div2_div; reflexivity.
Qed.

Lemma shr_m_iter k x : 0 <= shr_m x -> shr_m (Nat.iter k shr_1 x) = shr_m x / 2 ^ Z.of_nat k.
Proof.
  intros Hm. induction k as [|k IH].
  - cbn [Nat.iter nat_rect]. now rewrite Z.div_1_r.
  - rewrite Nat.iter_succ, shr_1_m; rewrite IH.
    + rewrite Z.div_div by (try apply Z.pow_pos_nonneg; lia).
      rewrite Nat2Z.inj_succ, Z.pow_succ_r by lia. f_equal. lia.
    + apply Z.div_pos; [assumption|]. apply Z.pow_pos_nonneg; lia.
Qed.

(** Bits shifted out of an exact record are remembered: as long as the
    record says exact, the shifted number was a multiple of the power. *)
Lemma shr_exact_iter k m :
  0 <= m ->
  let x := Nat.iter k shr_1 (Build_shr_record m false false) in
  loc_of_shr_record x = loc_Exact \/ m mod 2 ^ Z.of_nat k <> 0.
Proof.
  intros Hm. induction k as [|k IH]; [left; reflexivity|].
  cbv zeta in *. rewrite Nat.iter_succ.
  pose proof (shr_m_iter k (Build_shr_record m false false) Hm) as HM.
  cbn [shr_m] in HM.
  assert (Hpow : 0 < 2 ^ Z.of_nat k) by (apply Z.pow_pos_nonneg; lia).
  assert (Hstep : 2 ^ Z.of_nat (S k) = 2 * 2 ^ Z.of_nat k)
    by (rewrite Nat2Z.inj_succ, Z.pow_succ_r by lia; reflexivity).
  destruct (Nat.iter k shr_1 (Build_shr_record m false false)) as [M r s].
  cbn [shr_m] in HM.
  assert (HM0 : 0 <= M) by (subst M; apply Z.div_pos; lia).
  destruct IH as [IH|IH].
  - destruct r, s; try discriminate. cbn [shr_1 orb].
    destruct M as [|[p|p|]|p]; try lia; cbn [loc_of_shr_record];
      try (left; reflexivity); right; rewrite Hstep; intros H0.
    + apply Z.mod_divide in H0; [|lia]. destruct H0 as [q Hq].
      assert (m / 2 ^ Z.of_nat k = q * 2)
        by (rewrite Hq; replace (q * (2 * 2 ^ Z.of_nat k)) with (q * 2 * 2 ^ Z.of_nat k) by ring;
            apply Z.div_mul; lia).
      lia.
    + apply Z.mod_divide in H0; [|lia]. destruct H0 as [q Hq].
      assert (m / 2 ^ Z.of_nat k = q * 2)
        by (rewrite Hq; replace (q * (2 * 2 ^ Z.of_nat k)) with (q * 2 * 2 ^ Z.of_nat k) by ring;
            apply Z.div_mul; lia).
      lia.
  - right. rewrite Hstep. intros H0. apply IH.
    apply Z.mod_divide in H0; [|lia]. apply Z.mod_divide; [lia|].
    destruct H0 as [q Hq]. exists (q * 2). rewrite Hq. ring.
Qed.

Lemma round_nearest_even_le x l : x <= round_nearest_even x l <= x + 1.
Proof.
  unfold round_nearest_even.
  destruct l as [|[| |]]; try destruct (Z.even x); lia.
Qed.

Lemma Zdigits2_upper x : 0 <= x -> x < 2 ^ Zdigits2 x.
Proof.
  destruct x as [|p|p]; intros H; try lia; [reflexivity|]. apply digits_upper.
Qed.

Lemma Zdigits2_le x n : 0 <= n -> 0 <= x < 2 ^ n -> 0 <= Zdigits2 x <= n.
Proof.
  destruct x as [|p|p]; intros Hn H; cbn [Zdigits2]; try lia.
  split; [lia|]. apply digits_le; lia.
Qed.

Lemma shr_m_of_loc m l : shr_m (shr_record_of_loc m l) = m.
Proof. destruct l as [|[| |]]; reflexivity. Qed.

(** Rounding cannot step over a bound that the format can represent at
    the exponent the number is rounded at: a positive number that is below
    [b * 2^eb] (or equal to it, when it is given exactly) is rounded to 0
    or to a positive number that is at most [b * 2^eb]. *)
Lemma round_aux_upper mx ex lx b eb :
  0 < mx -> 0 < b ->
  Z.max ex (fexp prec emax (Zdigits2 mx + ex)) <= eb ->
  Z.max ex (fexp prec emax (Zdigits2 mx + ex)) + 1 <= 971 ->
  mx < b * 2 ^ (eb - ex) \/ (lx = loc_Exact /\ mx <= b * 2 ^ (eb - ex)) ->
  match binary_round_aux prec emax false mx ex lx with
  | S754_zero _ => True
  | S754_finite sz M E =>
      sz = false /\
      Z.max ex (fexp prec emax (Zdigits2 mx + ex)) <= E
      <= Z.max ex (fexp prec emax (Zdigits2 mx + ex)) + 1 /\
      Zpos M * 2 ^ (E - Z.max ex (fexp prec emax (Zdigits2 mx + ex)))
      <= b * 2 ^ (eb - Z.max ex (fexp prec emax (Zdigits2 mx + ex)))
  | _ => False
  end.
Proof.
  intros Hmx Hb He1 Hmax Hbound.
  pose proof (Zdigits2_upper mx ltac:(lia)) as Hd.
  assert (Hd0 : 0 <= Zdigits2 mx) by (destruct mx; cbn; lia).
  unfold binary_round_aux, shr_fexp. rewrite shr_nat.
  remember (fexp prec emax (Zdigits2 mx + ex)) as f eqn:Ef.
  assert (Hf : f = Z.max (Zdigits2 mx + ex - 53) (-1074)) by (subst f; reflexivity).
  remember (Z.to_nat (f - ex)) as k1 eqn:Ek1.
  replace (ex + Z.max (f - ex) 0) with (Z.max ex f) by lia.
  remember (Z.max ex f) as e1 eqn:Ee1.
  assert (Hk1 : Z.of_nat k1 = e1 - ex) by lia.
  remember (Nat.iter k1 shr_1 (shr_record_of_loc mx lx)) as X1 eqn:EX1.
  assert (HM1 : shr_m X1 = mx / 2 ^ Z.of_nat k1).
  { subst X1. rewrite shr_m_iter; rewrite shr_m_of_loc; [reflexivity|lia]. }
  assert (Hp1 : 0 < 2 ^ Z.of_nat k1) by (apply Z.pow_pos_nonneg; lia).
  assert (HM1pos : 0 <= shr_m X1) by (rewrite HM1; apply Z.div_pos; lia).
  assert (HM1lt : shr_m X1 < 2 ^ 53).
  { rewrite HM1. apply Z.div_lt_upper_bound; [assumption|].
    rewrite <- Z.pow_add_r by lia.
    eapply Z.lt_le_trans; [exact Hd|]. apply Z.pow_le_mono_r; lia. }
  assert (Hsplit : 2 ^ (eb - ex) = 2 ^ Z.of_nat k1 * 2 ^ (eb - e1)).
  { rewrite <- Z.pow_add_r by lia. f_equal. lia. }
  assert (Hp2 : 0 < 2 ^ (eb - e1)) by (apply Z.pow_pos_nonneg; lia).
  pose proof (round_nearest_even_le (shr_m X1) (loc_of_shr_record X1)) as Hr.
  remember (round_nearest_even (shr_m X1) (loc_of_shr_record X1)) as mx1 eqn:Emx1.
  assert (Hmx1 : mx1 <= b * 2 ^ (eb - e1)).
  { pose proof (Z.mul_div_le mx (2 ^ Z.of_nat k1) Hp1) as Hle.
    rewrite <- HM1 in Hle.
    destruct Hbound as [Hlt|[-> Hle']].
    - assert (shr_m X1 < b * 2 ^ (eb - e1)); [|lia].
      rewrite HM1. apply Z.div_lt_upper_bound; [assumption|].
      rewrite Hsplit in Hlt. lia.
    - cbn [shr_record_of_loc] in EX1.
      destruct (shr_exact_iter k1 mx ltac:(lia)) as [Hex|Hne]; cbv zeta in *.
      + rewrite <- EX1 in Hex. rewrite Hex in Emx1. cbn [round_nearest_even] in Emx1.
        subst mx1. rewrite Hsplit in Hle'. nia.
      + assert (shr_m X1 < b * 2 ^ (eb - e1)); [|lia].
        pose proof (Z.div_mod mx (2 ^ Z.of_nat k1) ltac:(lia)) as Hdm.
        pose proof (Z.mod_pos_bound mx (2 ^ Z.of_nat k1) Hp1) as Hmp.
        rewrite <- HM1 in Hdm. rewrite Hsplit in Hle'. nia. }
  rewrite shr_nat.
  remember (fexp prec emax (Zdigits2 mx1 + e1)) as f2 eqn:Ef2.
  assert (Hf2 : f2 = Z.max (Zdigits2 mx1 + e1 - 53) (-1074)) by (subst f2; reflexivity).
  assert (Hdig : 0 <= Zdigits2 mx1 <= 54).
  { apply Zdigits2_le; [lia|]. split; [lia|].
    replace (2 ^ 54) with (2 * 2 ^ 53) by reflexivity. lia. }
  remember (Z.to_nat (f2 - e1)) as k2 eqn:Ek2.
  assert (Hk2 : Z.of_nat k2 = Z.max (f2 - e1) 0) by lia.
  assert (Hk2le : 0 <= Z.max (f2 - e1) 0 <= 1) by lia.
  cbn [shr_record_of_loc].
  pose proof (shr_m_iter k2 (Build_shr_record mx1 false false)) as HM2.
  cbn [shr_m] in HM2. specialize (HM2 ltac:(lia)).
  assert (Hp3 : 0 < 2 ^ Z.of_nat k2) by (apply Z.pow_pos_nonneg; lia).
  pose proof (Z.mul_div_le mx1 (2 ^ Z.of_nat k2) Hp3) as Hle2.
  rewrite <- HM2 in Hle2.
  assert (HM2pos : 0 <= shr_m (Nat.iter k2 shr_1 (Build_shr_record mx1 false false)))
    by (rewrite HM2; apply Z.div_pos; lia).
  destruct (shr_m (Nat.iter k2 shr_1 (Build_shr_record mx1 false false))) as [|m|m];
    [exact I| |lia].
  replace (e1 + Z.max (f2 - e1) 0 <=? emax - prec) with true
    by (symmetry; apply Z.leb_le; change (emax - prec) with 971; lia).
  split; [reflexivity|]. split; [lia|].
  replace (e1 + Z.max (f2 - e1) 0 - e1) with (Z.of_nat k2) by lia.
  lia.
Qed.

Lemma shl_value p k : Zpos (shl p k) = Zpos p * 2 ^ Z.of_nat k.
Proof.
  induction k as [|k IH].
  - cbn [shl Nat.iter nat_rect]. unfold shl. cbn. lia.
  - rewrite shl_S, Pos2Z.inj_xO, IH, Nat2Z.inj_succ, Z.pow_succ_r by lia. lia.
Qed.

(** A quotient of two normal numbers whose value is below 1 is rounded to
    0 or to a positive number that is at most 1. *)
Lemma SFdiv_below_one m1 e1 m2 e2 :
  Zpos (digits2_pos m1) = 53 -> Zpos (digits2_pos m2) = 53 ->
  -52 <= e1 <= 0 -> -52 <= e2 <= 0 ->
  Zpos m1 * 2 ^ (- e2) < Zpos m2 * 2 ^ (- e1) ->
  match SFdiv prec emax (S754_finite false m1 e1) (S754_finite false m2 e2) with
  | S754_zero _ => True
  | S754_finite sz M E => sz = false /\ E <= 0 /\ Zpos M <= 2 ^ (- E)
  | _ => False
  end.
Proof.
  intros Hd1 Hd2 He1 He2 Hlt.
  unfold SFdiv, SFdiv_core_binary. cbn [Zdigits2 xorb]. rewrite Hd1, Hd2.
  replace (Z.min (fexp prec emax (53 + e1 - (53 + e2))) (e1 - e2)) with (e1 - e2 - 53)
    by (unfold fexp, emin; change prec with 53; change emax with 1024; lia).
  replace (e1 - e2 - (e1 - e2 - 53)) with 53 by lia.
  cbv iota beta. rewrite Z.shiftl_mul_pow2 by lia.
  pose proof (digits_lower m1) as Hl1. rewrite Hd1 in Hl1.
  pose proof (digits_upper m2) as Hu2. rewrite Hd2 in Hu2.
  pose proof (digits_lower m2) as Hl2. rewrite Hd2 in Hl2.
  change (2 ^ (53 - 1)) with (2 ^ 52) in *.
  assert (H52 : 0 < 2 ^ 52) by reflexivity.
  assert (H53 : 2 ^ 53 = 2 * 2 ^ 52) by reflexivity.
  assert (Hq : Zpos m1 * 2 ^ 53 / Zpos m2
               = fst (Z.div_eucl (Zpos m1 * 2 ^ 53) (Zpos m2))) by reflexivity.
  destruct (Z.div_eucl (Zpos m1 * 2 ^ 53) (Zpos m2)) as [q r]. cbn [fst] in Hq.
  assert (Hqpos : 0 < q).
  { rewrite <- Hq. apply Z.div_str_pos. nia. }
  assert (Hpow : 2 ^ (0 - (e1 - e2 - 53)) = 2 ^ (53 + e2) * 2 ^ (- e1)).
  { rewrite <- Z.pow_add_r by lia. f_equal. lia. }
  assert (Hpow2 : 2 ^ 53 = 2 ^ (53 + e2) * 2 ^ (- e2)).
  { rewrite <- Z.pow_add_r by lia. f_equal. lia. }
  assert (Hp : 0 < 2 ^ (53 + e2)) by (apply Z.pow_pos_nonneg; lia).
  assert (Hqlt : q < 1 * 2 ^ (0 - (e1 - e2 - 53))).
  { rewrite <- Hq. apply Z.div_lt_upper_bound; [lia|].
    rewrite Hpow, Hpow2. nia. }
  assert (Hdq : 0 <= Zdigits2 q <= 0 - (e1 - e2 - 53)).
  { apply Zdigits2_le; lia. }
  assert (He : Z.max (e1 - e2 - 53) (fexp prec emax (Zdigits2 q + (e1 - e2 - 53))) <= -1).
  { unfold fexp, emin. change prec with 53. change emax with 1024. lia. }
  pose proof (round_aux_upper q (e1 - e2 - 53) (new_location (Zpos m2) r) 1 0
                Hqpos ltac:(lia) ltac:(lia) ltac:(lia) (or_introl Hqlt)) as Hround.
  destruct (binary_round_aux prec emax false q (e1 - e2 - 53) (new_location (Zpos m2) r))
    as [| | |sz M E]; try exact Hround.
  destruct Hround as (Hs & HE & HM).
  remember (Z.max (e1 - e2 - 53) (fexp prec emax (Zdigits2 q + (e1 - e2 - 53)))) as e' eqn:Ee'.
  split; [exact Hs|]. split; [lia|].
  assert (Hc : 2 ^ (0 - e') = 2 ^ (- E) * 2 ^ (E - e')).
  { rewrite <- Z.pow_add_r by lia. f_equal. lia. }
  assert (Hc0 : 0 < 2 ^ (E - e')) by (apply Z.pow_pos_nonneg; lia).
  rewrite Hc in HM. nia.
Qed.

(** At most 1 times 100 is rounded to 0 or to a positive number that is at
    most 100. *)
Lemma SFmul_100_upper M E :
  E <= 0 -> Zpos M <= 2 ^ (- E) ->
  match SFmul prec emax (S754_finite false M E) (Prim2SF 100) with
  | S754_zero _ => True
  | S754_finite sz M' E' => sz = false /\ E' < 0 /\ Zpos M' <= 100 * 2 ^ (- E')
  | _ => False
  end.
Proof.
  intros HE HM.
  change (Prim2SF 100) with (S754_finite false 7036874417766400 (-46)).
  unfold SFmul. cbn [xorb]. rewrite Pos2Z.inj_mul.
  assert (H100 : Zpos 7036874417766400 = 100 * 2 ^ 46) by reflexivity.
  rewrite H100.
  assert (Hp : 0 < 2 ^ (- E)) by (apply Z.pow_pos_nonneg; lia).
  assert (Hpow : 2 ^ (0 - (E + -46)) = 2 ^ 46 * 2 ^ (- E)).
  { rewrite <- Z.pow_add_r by lia. f_equal. lia. }
  assert (H46 : 0 < 2 ^ 46) by reflexivity.
  assert (Hle : Zpos M * (100 * 2 ^ 46) <= 100 * 2 ^ (0 - (E + -46))).
  { rewrite Hpow. nia. }
  assert (Hdig : 0 <= Zdigits2 (Zpos M * (100 * 2 ^ 46)) <= 53 - E).
  { apply Zdigits2_le; [lia|]. split; [lia|].
    replace (2 ^ (53 - E)) with (128 * (2 ^ 46 * 2 ^ (- E))).
    - rewrite Hpow in Hle. nia.
    - change 128 with (2 ^ 7). rewrite <- !Z.pow_add_r by lia. f_equal. lia. }
  assert (He : Z.max (E + -46)
                 (fexp prec emax (Zdigits2 (Zpos M * (100 * 2 ^ 46)) + (E + -46))) <= -46).
  { unfold fexp, emin. change prec with 53. change emax with 1024. lia. }
  pose proof (round_aux_upper (Zpos M * (100 * 2 ^ 46)) (E + -46) loc_Exact 100 0
                ltac:(lia) ltac:(lia) ltac:(lia) ltac:(lia)
                (or_intror (conj eq_refl Hle))) as Hround.
  destruct (binary_round_aux prec emax false (Zpos M * (100 * 2 ^ 46)) (E + -46) loc_Exact)
    as [| | |sz M' E']; try exact Hround.
  destruct Hround as (Hs & HE' & HM').
  remember (Z.max (E + -46)
              (fexp prec emax (Zdigits2 (Zpos M * (100 * 2 ^ 46)) + (E + -46)))) as e' eqn:Ee'.
  split; [exact Hs|]. split; [lia|].
  assert (Hc : 2 ^ (0 - e') = 2 ^ (- E') * 2 ^ (E' - e')).
  { rewrite <- Z.pow_add_r by lia. f_equal. lia. }
  assert (Hc0 : 0 < 2 ^ (E' - e')) by (apply Z.pow_pos_nonneg; lia).
  rewrite Hc in HM'. nia.
Qed.

(** [toFixed(2)] of a positive number that is at most 100. *)
Lemma toFixed2_upper (x : number) M E :
  Prim2SF x = S754_finite false M E ->
  E < 0 -> Zpos M <= 100 * 2 ^ (- E) ->
  exists n, 0 <= n <= 10000 /\ toFixed2 x = fixedDigits n.
Proof.
  intros Hx HE HM. exists (hundredths M E). split.
  - unfold hundredths.
    replace (0 <=? E) with false by (symmetry; apply Z.leb_gt; lia).
    assert (Hp : 0 < 2 ^ (- E)) by (apply Z.pow_pos_nonneg; lia).
    assert (Hp1 : 2 ^ (1 - E) = 2 * 2 ^ (- E)).
    { replace (1 - E) with (Z.succ (- E)) by lia. apply Z.pow_succ_r. lia. }
    split.
    + apply Z.div_pos; lia.
    + assert (H : (200 * Zpos M + 2 ^ (- E)) / 2 ^ (1 - E) < 10001); [|lia].
      apply Z.div_lt_upper_bound; [lia|]. rewrite Hp1. nia.
  - unfold toFixed2, exponential. rewrite Hx.
    replace (0 <=? E) with false by (symmetry; apply Z.leb_gt; lia).
    reflexivity.
Qed.

Lemma Prim2SF_ofZ_pos p :
  Zpos p < 2 ^ 53 -> Prim2SF (ofZ (Zpos p)) = whole p.
Proof.
  intros Hp. rewrite Prim2SF_ofZ by lia. now apply normalize_whole.
Qed.

(** X16. The percentage stays in its range: when every weight is a whole
    number and the weights add up to more than 0 and less than 2^53,
    [calculateProjectProgress] returns a percentage with two decimals
    between 0.00 and 100.00. *)
Theorem whole_weights_progress_in_range
    (store : Type) (serve : request -> store -> outcome * store)
    (projectId : ident) (s s1 : store) (tasks : list task) :
  lists serve projectId s tasks s1 ->
  Forall (fun t => wholeWeight (weight t)) tasks ->
  0 < totalZ tasks < 2 ^ 53 ->
  exists n,
    0 <= n <= 10000 /\
    result serve (calculateProjectProgress projectId) s
    = Returns (PString (fixedDigits n)).
Proof.
  intros Hl Hall [Hpos Htot].
  rewrite (run_calculateProjectProgress serve projectId s tasks s1 Hl).
  destruct tasks as [|t0 tasks0]; [cbn in Hpos; lia|].
  remember (t0 :: tasks0) as tasks eqn:Et. clear Et.
  rewrite (completionProgress_whole tasks Hall Htot).
  pose proof (doneZ_le_totalZ tasks Hall) as Hdone.
  assert (Hgoal : exists n, 0 <= n <= 10000 /\
            toFixed2 (ofZ (doneZ tasks) / ofZ (totalZ tasks) * 100)%float = fixedDigits n);
    [|destruct Hgoal as (n & Hn & E); exists n; split; [exact Hn|now rewrite E]].
  destruct (totalZ tasks) as [|pt|pt] eqn:Etot; try lia.
  pose proof (Prim2SF_ofZ_pos pt Htot) as Ht.
  assert (Hdt : Zpos (digits2_pos pt) <= 53) by (apply digits_le; lia).
  destruct (doneZ tasks) as [|pc|pc] eqn:Edone; try lia.
  - exists 0. split; [lia|].
    unfold toFixed2. rewrite FloatAxioms.mul_spec, FloatAxioms.div_spec, Ht.
    reflexivity.
  - destruct (Z.eq_dec (Zpos pc) (Zpos pt)) as [Heq|Hneq].
    + exists 10000. split; [lia|]. rewrite Heq.
      rewrite div_self by (unfold finiteNonzero; now rewrite Ht).
      reflexivity.
    + assert (Hlt : Zpos pc < Zpos pt) by lia.
      pose proof (Prim2SF_ofZ_pos pc ltac:(lia)) as Hc.
      assert (Hdc : Zpos (digits2_pos pc) <= 53) by (apply digits_le; lia).
      assert (Hdiv := SFdiv_below_one
        (shl pc (Z.to_nat (53 - Zpos (digits2_pos pc)))) (Zpos (digits2_pos pc) - 53)
        (shl pt (Z.to_nat (53 - Zpos (digits2_pos pt)))) (Zpos (digits2_pos pt) - 53)).
      rewrite !digits_shl, !shl_value in Hdiv.
      rewrite !Z2Nat.id in Hdiv by lia.
      specialize (Hdiv ltac:(lia) ltac:(lia) ltac:(lia) ltac:(lia)).
      replace (- (Zpos (digits2_pos pt) - 53)) with (53 - Zpos (digits2_pos pt)) in Hdiv by lia.
      replace (- (Zpos (digits2_pos pc) - 53)) with (53 - Zpos (digits2_pos pc)) in Hdiv by lia.
      assert (H1 : 0 < 2 ^ (53 - Zpos (digits2_pos pc))) by (apply Z.pow_pos_nonneg; lia).
      assert (H2 : 0 < 2 ^ (53 - Zpos (digits2_pos pt))) by (apply Z.pow_pos_nonneg; lia).
      specialize (Hdiv ltac:(nia)).
      fold (whole pc) in Hdiv. fold (whole pt) in Hdiv.
      rewrite <- Hc, <- Ht in Hdiv.
      change (SFdiv prec emax) with SF64div in Hdiv.
      rewrite <- FloatAxioms.div_spec in Hdiv.
      remember (ofZ (Zpos pc) / ofZ (Zpos pt))%float as q eqn:Eq.
      destruct (Prim2SF q) as [sq| | |sq M E] eqn:Hq; try contradiction.
      * exists 0. split; [lia|].
        unfold toFixed2. rewrite FloatAxioms.mul_spec, Hq.
        destruct sq; reflexivity.
      * destruct Hdiv as (-> & HE & HM).
        pose proof (SFmul_100_upper M E HE HM) as Hmul.
        rewrite <- Hq in Hmul.
        change (SFmul prec emax) with SF64mul in Hmul.
        rewrite <- FloatAxioms.mul_spec in Hmul.
        destruct (Prim2SF (q * 100)) as [sz| | |sz M' E'] eqn:Hz; try contradiction.
        -- exists 0. split; [lia|]. unfold toFixed2. rewrite Hz. reflexivity.
        -- destruct Hmul as (-> & HE' & HM').
           exact (toFixed2_upper (q * 100)%float M' E' Hz HE' HM').
Qed.

Lemma whole_weights_progress_in_range_witness :
  lists listingBackend (Some 1) threeWhole threeWhole threeWhole /\
  Forall (fun t => wholeWeight (weight t)) threeWhole /\
  0 < totalZ threeWhole < 2 ^ 53 /\
  exists n,
    0 <= n <= 10000 /\
    result listingBackend (calculateProjectProgress (Some 1)) threeWhole
    = Returns (PString (fixedDigits n)).
Proof.
  assert (Hall : Forall (fun t => wholeWeight (weight t)) threeWhole).
  { repeat constructor; vm_compute; congruence. }
  assert (Htot : 0 < totalZ threeWhole < 2 ^ 53) by (vm_compute; split; reflexivity).
  split; [apply listing_lists|]. split; [exact Hall|]. split; [exact Htot|].
  exact (whole_weights_progress_in_range _ listingBackend (Some 1)
           threeWhole threeWhole threeWhole (listing_lists (Some 1) threeWhole)
           Hall Htot).
Defined.
